(** * Plum ecoMAX integration: capability, migration and schedule model

    A shallow embedding of the Home Assistant custom component
    [custom_components/plum_ecomax] ([__init__.py], [connection.py],
    [services.py]) and the properties its specification states about it.

    Part I holds the embedding, one module per source file, preceded by the
    fragments of Python ([str], [re], [datetime], exceptions) the code relies
    on.  Part II holds the lemmas and theorems. *)

From Stdlib Require Import ZArith Ascii String Lia.
From stdpp Require Import base gmap sets list strings pretty.

#[local] Arguments String.append !_ _ / : simpl nomatch.

(** * Part I: the embedding *)

(** ** Python strings

    A [str] is a sequence of code points; the model keeps the code points
    below 256, one [ascii] each. *)
Module PyStr.

Definition code (a : ascii) : N := N_of_ascii a.

Definition in_range (lo hi : N) (a : ascii) : bool :=
  ((lo <=? code a) && (code a <=? hi))%N.

(** [A-Z] *)
Definition is_upper (a : ascii) : bool := in_range 65 90 a.
(** [a-z] *)
Definition is_lower (a : ascii) : bool := in_range 97 122 a.
(** [0-9] *)
Definition is_digit (a : ascii) : bool := in_range 48 57 a.
(** [str.isspace] on one code point: TAB..CR, FS..US, SPACE, NEL, NBSP. *)
Definition is_space (a : ascii) : bool :=
  in_range 9 13 a || in_range 28 32 a || (code a =? 133)%N || (code a =? 160)%N.
Definition is_newline (a : ascii) : bool := (code a =? 10)%N.

Fixpoint all (p : ascii → bool) (s : string) : bool :=
  match s with
  | EmptyString => true
  | String a s' => p a && all p s'
  end.

Fixpoint take (n : nat) (s : string) : string :=
  match n, s with
  | S n', String a s' => String a (take n' s')
  | _, _ => EmptyString
  end.

(** [s.startswith(p)] *)
Fixpoint startswith (p s : string) : bool :=
  match p, s with
  | EmptyString, _ => true
  | String a p', String b s' => Ascii.eqb a b && startswith p' s'
  | String _ _, EmptyString => false
  end.

(** [sub in s] *)
Fixpoint contains (sub s : string) : bool :=
  startswith sub s ||
  match s with
  | EmptyString => false
  | String _ s' => contains sub s'
  end.

(** [s.split(sep, maxsplit)] for a one-character separator: at most
    [maxsplit] cuts, made from the left. *)
Fixpoint split (sep : ascii) (maxsplit : nat) (s : string) : list string :=
  match s with
  | EmptyString => [EmptyString]
  | String a s' =>
      match maxsplit with
      | O => [s]
      | S m =>
          if Ascii.eqb a sep then EmptyString :: split sep m s'
          else match split sep maxsplit s' with
               | w :: ws => String a w :: ws
               | [] => [String a EmptyString]
               end
      end
  end.

(** [s.count(c)] for one character *)
Fixpoint count (c : ascii) (s : string) : nat :=
  match s with
  | EmptyString => 0
  | String a s' => (if Ascii.eqb a c then 1 else 0) + count c s'
  end.

(** [s] without the leading, and without the trailing, characters that
    count as white space by [space]. *)
Fixpoint ltrim (space : ascii → bool) (s : string) : string :=
  match s with
  | String a s' => if space a then ltrim space s' else s
  | EmptyString => EmptyString
  end.

Fixpoint rtrim (space : ascii → bool) (s : string) : string :=
  match s with
  | String a s' =>
      match rtrim space s' with
      | EmptyString => if space a then EmptyString else String a EmptyString
      | t => String a t
      end
  | EmptyString => EmptyString
  end.

Definition trim (space : ascii → bool) (s : string) : string :=
  rtrim space (ltrim space s).

(** How many characters of [s] satisfy [p]. *)
Fixpoint count_if (p : ascii → bool) (s : string) : nat :=
  match s with
  | EmptyString => 0
  | String a s' => (if p a then 1 else 0) + count_if p s'
  end.

End PyStr.

(** ** The fragment of [re] used by [format_model_name] *)
Module Re.
Import PyStr.

Inductive cls : Type :=
| UpperAZ    (* [A-Z] *)
| Digit09    (* [0-9] *)
| Space      (* \s *)
| Dot.       (* . *)

Inductive regex : Type :=
| Bol                              (* ^ *)
| Eol                              (* $ *)
| Rep (c : cls) (lo : nat)         (* c{lo,}, greedy; c+ is c{1,} *)
| Group (n : nat) (r : regex)      (* the n-th capturing group *)
| Cat (r1 r2 : regex).

Record flags := { ignorecase : bool }.
Definition IGNORECASE : flags := {| ignorecase := true |}.

Definition cls_match (f : flags) (c : cls) (a : ascii) : bool :=
  match c with
  | UpperAZ => is_upper a || (ignorecase f && is_lower a)
  | Digit09 => is_digit a
  | Space => is_space a
  | Dot => negb (is_newline a)
  end.

(** A position in the subject: the offset reached and the text left. *)
Record cursor := { offset : nat; rest : string }.

Definition captures := gmap nat string.

Section Matcher.
Context {R : Type}.

(** Greedy repetition with backtracking: take one more character when
    that leads to a match, otherwise stop here if [lo] are taken. *)
Fixpoint rep (p : ascii → bool) (lo : nat) (s : string)
    (k : string → option R) : option R :=
  match s with
  | String a s' =>
      if p a then
        match rep p (Nat.pred lo) s' k with
        | Some r => Some r
        | None => match lo with O => k s | S _ => None end
        end
      else match lo with O => k s | S _ => None end
  | EmptyString => match lo with O => k s | S _ => None end
  end.

(** [$] without MULTILINE: at the end, or before a final newline. *)
Definition at_eol (s : string) : bool :=
  match s with
  | EmptyString => true
  | String a EmptyString => is_newline a
  | _ => false
  end.

Fixpoint run (f : flags) (r : regex) (cur : cursor) (caps : captures)
    (k : cursor → captures → option R) : option R :=
  match r with
  | Bol => match offset cur with O => k cur caps | S _ => None end
  | Eol => if at_eol (rest cur) then k cur caps else None
  | Rep c lo =>
      rep (cls_match f c) lo (rest cur)
        (λ s', k {| offset := offset cur
                              + (String.length (rest cur) - String.length s');
                    rest := s' |} caps)
  | Group n r' =>
      run f r' cur caps
        (λ cur' caps',
           k cur' (<[n := take (offset cur' - offset cur) (rest cur)]> caps'))
  | Cat r1 r2 => run f r1 cur caps (λ cur' caps', run f r2 cur' caps' k)
  end.
End Matcher.

(** [re.match(pattern, s, flags)]: a match anchored at offset 0. *)
Definition re_match (r : regex) (s : string) (f : flags) : option captures :=
  run f r {| offset := 0; rest := s |} ∅ (λ _ caps, Some caps).

(** [m.group(n)] for a group that took part in the match. *)
Definition group (m : captures) (n : nat) : string := default "" (m !! n).

End Re.

(** ** Exceptions and values *)
Module Py.
Import PyStr.

Inductive exn : Type :=
| TimeoutError              (* asyncio.TimeoutError, builtin TimeoutError *)
| KeyError
| IndexError
| TypeError
| ValueError
| ParameterNotFoundError    (* pyplumio.exceptions *)
| HomeAssistantError (msg : string).

Inductive result (A : Type) : Type :=
| Ok (a : A)
| Raise (e : exn).
Arguments Ok {A} a.
Arguments Raise {A} e.

Definition is_timeout (e : exn) : bool :=
  match e with TimeoutError => true | _ => false end.

(** The values kept in config-entry data and in event payloads. *)
Inductive value : Type :=
| VInt (z : Z)
| VStr (s : string)
| VList (l : list string)
| VSet (l : gset string).

(** [d[k]] *)
Definition getitem {V} (d : gmap string V) (k : string) : result V :=
  match d !! k with
  | Some v => Ok v
  | None => Raise KeyError
  end.

(** [{key(x): val(x) for x in xs}]: later items replace earlier ones. *)
Definition dict_of {A V} (key : A → string) (val : A → V) (xs : list A)
    : gmap string V :=
  foldl (λ d x, <[key x := val x]> d) ∅ xs.

(** [enumerate(xs)] *)
Fixpoint enumerate_from {A} (i : nat) (xs : list A) : list (nat * A) :=
  match xs with
  | [] => []
  | x :: xs' => (i, x) :: enumerate_from (S i) xs'
  end.
Definition enumerate {A} (xs : list A) : list (nat * A) := enumerate_from 0 xs.

#[export] Instance result_ret : MRet result := λ A a, Ok a.
#[export] Instance result_bind : MBind result := λ A B k r,
  match r with
  | Ok a => k a
  | Raise e => Raise e
  end.

(** The digits of an integer literal, with single underscores allowed
    between digits; [ok] tells whether the previous character was a
    digit. *)
Fixpoint int_digits (acc : Z) (ok : bool) (s : string) : option Z :=
  match s with
  | EmptyString => if ok then Some acc else None
  | String a s' =>
      if is_digit a then int_digits (acc * 10 + (Z.of_N (code a) - 48)) true s'
      else if Ascii.eqb a "_" && ok then int_digits acc false s'
      else None
  end.

(** The white space [int] skips around a literal: TAB..CR and SPACE, and
    NEL and NBSP, which the conversion of a [str] to ASCII digits turns
    into spaces.  FS..US are white space to [str.isspace] and to [\s], but
    not to [int]. *)
Definition is_int_space (a : ascii) : bool :=
  in_range 9 13 a || (code a =? 32)%N || (code a =? 133)%N || (code a =? 160)%N.

(** [sys.int_info.default_max_str_digits]: a literal of more digits is
    refused. *)
Definition int_max_str_digits : nat := 4300.

(** [int(s)] for a [str]: white space, a sign, digits, white space.  The
    digits are counted without the underscores between them. *)
Definition py_int (s : string) : result Z :=
  let '(sign, body) :=
    match trim is_int_space s with
    | String a t =>
        if Ascii.eqb a "-" then ((-1)%Z, t)
        else if Ascii.eqb a "+" then (1%Z, t)
        else (1%Z, String a t)
    | EmptyString => (1%Z, EmptyString)
    end in
  match int_digits 0 false body with
  | Some n =>
      if int_max_str_digits <? count_if is_digit body then Raise ValueError
      else Ok (sign * n)%Z
  | None => Raise ValueError
  end.

(** Code that reads and writes a state [S] and may raise: what was written
    before an exception stays written. *)
Definition M (S A : Type) : Type := S → S * result A.

#[export] Instance M_ret {S} : MRet (M S) := λ A a s, (s, Ok a).
#[export] Instance M_bind {S} : MBind (M S) := λ A B k m s,
  match m s with
  | (s', Ok a) => k a s'
  | (s', Raise e) => (s', Raise e)
  end.

Definition raise {S A} (e : exn) : M S A := λ s, (s, Raise e).
Definition gets {S A} (f : S → A) : M S A := λ s, (s, Ok (f s)).
Definition modify {S} (f : S → S) : M S unit := λ s, (f s, Ok tt).
(** The outcome of an awaited call, or of any expression that may raise. *)
Definition lift {S A} (r : result A) : M S A := λ s, (s, r).

(** [try: body / except <handles>: handler] *)
Definition try_except {S A} (body : M S A) (handles : exn → bool)
    (handler : M S A) : M S A := λ s,
  match body s with
  | (s', Raise e) => if handles e then handler s' else (s', Raise e)
  | (s', Ok a) => (s', Ok a)
  end.

(** How a block ends: by running off its end, or by [return b]. *)
Inductive completion (A : Type) : Type :=
| Normal
| Return (a : A).
Arguments Normal {A}.
Arguments Return {A} a.

End Py.

(** ** The fragment of [datetime] used by the events and the schedules *)
Module Datetime.
Import PyStr.
#[local] Open Scope Z_scope.

(** A naive [datetime]; Python keeps [1 <= year <= 9999], a valid day of
    the month, [hour < 24], [minute < 60] and [second < 60]. *)
Record datetime := {
  year : Z; month : Z; day : Z; hour : Z; minute : Z; second : Z }.

Definition digit (z : Z) : ascii := ascii_of_N (48 + Z.to_N (z mod 10)).

(** Zero-padded decimal of fixed width, as [%02d] and [%04d] print a
    number that fits. *)
Definition d2 (z : Z) : string :=
  String (digit (z / 10)) (String (digit z) "").
Definition d4 (z : Z) : string :=
  String (digit (z / 1000)) (String (digit (z / 100)) (d2 z)).

Definition directive (c : ascii) (t : datetime) : string :=
  if Ascii.eqb c "Y" then d4 (year t)
  else if Ascii.eqb c "m" then d2 (month t)
  else if Ascii.eqb c "d" then d2 (day t)
  else if Ascii.eqb c "H" then d2 (hour t)
  else if Ascii.eqb c "M" then d2 (minute t)
  else if Ascii.eqb c "S" then d2 (second t)
  else String "%" (String c "").

(** [t.strftime(fmt)] for the directives above. *)
Fixpoint strftime (t : datetime) (fmt : string) : string :=
  match fmt with
  | EmptyString => EmptyString
  | String a fmt' =>
      if Ascii.eqb a "%" then
        match fmt' with
        | String c fmt'' => directive c t +:+ strftime t fmt''
        | EmptyString => String a EmptyString
        end
      else String a (strftime t fmt')
  end.

Definition is_leap (y : Z) : bool :=
  ((y mod 4 =? 0) && negb (y mod 100 =? 0)) || (y mod 400 =? 0).

Definition days_in_month (y m : Z) : Z :=
  if m =? 2 then (if is_leap y then 29 else 28)
  else if (m =? 4) || (m =? 6) || (m =? 9) || (m =? 11) then 30
  else 31.

Definition next_day (t : datetime) : datetime :=
  if day t <? days_in_month (year t) (month t) then
    {| year := year t; month := month t; day := day t + 1;
       hour := hour t; minute := minute t; second := second t |}
  else if month t <? 12 then
    {| year := year t; month := month t + 1; day := 1;
       hour := hour t; minute := minute t; second := second t |}
  else
    {| year := year t + 1; month := 1; day := 1;
       hour := hour t; minute := minute t; second := second t |}.

(** [t + timedelta(minutes=n)] for [n >= 0], short of year 10000. *)
Definition add_minutes (t : datetime) (n : Z) : datetime :=
  let total := hour t * 60 + minute t + n in
  let t' := Nat.iter (Z.to_nat (total / 1440)) next_day t in
  {| year := year t'; month := month t'; day := day t';
     hour := (total mod 1440) / 60; minute := (total mod 1440) mod 60;
     second := second t |}.

(** One of [%H], [%M], [%S] read by [strptime]: two digits, or one. *)
Definition read_field (bound : Z) (s : string) : option (Z * string) :=
  let val (a : ascii) : Z := Z.of_N (code a) - 48 in
  match s with
  | String a (String b s') =>
      if is_digit a && is_digit b && (val a * 10 + val b <? bound)
      then Some (val a * 10 + val b, s')
      else if is_digit a then Some (val a, String b s') else None
  | String a EmptyString => if is_digit a then Some (val a, "") else None
  | EmptyString => None
  end.

(** [datetime.strptime(s, fmt)] for a format made of [%H], [%M], [%S] and
    literal characters, each field followed by a literal or by the end;
    the date defaults to 1900-01-01.  [None] stands for [ValueError]. *)
Fixpoint strptime_go (fmt s : string) (t : datetime) : option datetime :=
  match fmt with
  | EmptyString => match s with EmptyString => Some t | _ => None end
  | String a fmt' =>
      if Ascii.eqb a "%" then
        match fmt' with
        | String c fmt'' =>
            if Ascii.eqb c "H" then
              '(v, s') ← read_field 24 s;
              strptime_go fmt'' s'
                {| year := year t; month := month t; day := day t;
                   hour := v; minute := minute t; second := second t |}
            else if Ascii.eqb c "M" then
              '(v, s') ← read_field 60 s;
              strptime_go fmt'' s'
                {| year := year t; month := month t; day := day t;
                   hour := hour t; minute := v; second := second t |}
            else if Ascii.eqb c "S" then
              '(v, s') ← read_field 62 s;
              strptime_go fmt'' s'
                {| year := year t; month := month t; day := day t;
                   hour := hour t; minute := minute t; second := v |}
            else None
        | EmptyString => None
        end
      else
        match s with
        | String b s' => if Ascii.eqb a b then strptime_go fmt' s' t else None
        | EmptyString => None
        end
  end.

Definition epoch_1900 : datetime :=
  {| year := 1900; month := 1; day := 1; hour := 0; minute := 0; second := 0 |}.

Definition strptime (s fmt : string) : option datetime :=
  strptime_go fmt s epoch_1900.

End Datetime.

(** ** Home Assistant: device registry, config entries, event bus *)
Module HA.
Import Py.

Record DeviceEntry := { id : string; identifiers : list (string * string) }.

(** [dr.async_get(device_id)] *)
Definition async_get (dr : list DeviceEntry) (device_id : string)
    : option DeviceEntry :=
  List.find (λ d, String.eqb (id d) device_id) dr.

(** [dr.async_get_device(identifiers)] *)
Definition async_get_device (dr : list DeviceEntry)
    (idents : list (string * string)) : option DeviceEntry :=
  List.find (λ d, existsb (λ i, bool_decide (i ∈ identifiers d)) idents) dr.

Record ConfigEntry := { version : Z; data : gmap string value }.

Record Event := { event_type : string; event_data : gmap string value }.

Definition ATTR_NAME : string := "name".
Definition ATTR_DEVICE_ID : string := "device_id".
Definition ATTR_CODE : string := "code".

End HA.

(** ** [const.py] and the constants of [pyplumio] *)
Module Const.

(** Modelled from the spec: [const.py] is not among the sources; the keys
    below are the field and token names the spec gives ([model],
    [product_type], [product_id], [capabilities], [water_heater], the
    mixer collection, the event's from and to timestamps). *)
Definition DOMAIN : string := "plum_ecomax".
Definition EVENT_PLUM_ECOMAX_ALERT : string := "plum_ecomax_alert".
Definition ATTR_FROM : string := "from".
Definition ATTR_TO : string := "to".
Definition ATTR_MIXERS : string := "mixers".
Definition ATTR_WATER_HEATER : string := "water_heater".
Definition CONF_MODEL : string := "model".
Definition CONF_PRODUCT_TYPE : string := "product_type".
Definition CONF_PRODUCT_ID : string := "product_id".
Definition CONF_CAPABILITIES : string := "capabilities".
Definition CONF_SUB_DEVICES : string := "sub_devices".

(** The constants of [pyplumio.helpers.schedule], a library outside the
    repository.  Its times have hours and minutes and no seconds: the
    set-schedule service takes [HH:MM:SS] from its caller and cuts the
    seconds off ([start_time[:-3]]) before it hands a time to the day's
    [set_state], which reads it by the same [TIME_FORMAT].  The labels are
    the two presets, [day] and [night]. *)
Definition TIME_FORMAT : string := "%H:%M".
Definition START_OF_DAY : string := "00:00".
Definition STATE_DAY : string := "day".
Definition STATE_NIGHT : string := "night".

End Const.

(** ** [__init__.py] *)
Module Init.
Import PyStr Re Py Datetime HA Const.

Definition DATE_STR_FORMAT : string := "%Y-%m-%d %H:%M:%S".

(** [r"^([A-Z]+)\s{0,}([0-9]{3,})(.+)$"] *)
Definition model_pattern : regex :=
  Cat Bol
    (Cat (Group 1 (Rep UpperAZ 1))
       (Cat (Rep Space 0)
          (Cat (Group 2 (Rep Digit09 3))
             (Cat (Group 3 (Rep Dot 1)) Eol)))).

Definition format_model_name (model_name : string) : string :=
  match re_match model_pattern model_name IGNORECASE with
  | Some m =>
      let '(model_device, model_number, model_suffix) :=
        (group m 1, group m 2, group m 3) in
      let model_device :=
        if String.eqb model_device "EM" then "ecoMAX" else model_device in
      model_device +:+ " " +:+ model_number +:+ model_suffix
  | None => model_name
  end.

(** *** Alert events *)

(** [pyplumio.structures.alerts.Alert] *)
Record Alert := { code : Z; from_dt : datetime; to_dt : option datetime }.

(** What [async_setup_events] reads of the connection: the [name] and
    [uid] properties. *)
Record EcomaxConnection := { name : string; uid : string }.

Definition alert_event_data (connection : EcomaxConnection)
    (device : DeviceEntry) (alert : Alert) : gmap string value :=
  let event_data : gmap string value :=
    <[ATTR_FROM := VStr (strftime (from_dt alert) DATE_STR_FORMAT)]>
      (<[ATTR_CODE := VInt (code alert)]>
         (<[ATTR_DEVICE_ID := VStr (id device)]>
            (<[ATTR_NAME := VStr (name connection)]> ∅))) in
  match to_dt alert with
  | Some t => <[ATTR_TO := VStr (strftime t DATE_STR_FORMAT)]> event_data
  | None => event_data
  end.

(** The state is the list of events fired on [hass.bus], oldest first. *)
Definition async_dispatch_alert_events (dr : list DeviceEntry)
    (connection : EcomaxConnection) (alerts : list Alert)
    (bus : list Event) : list Event :=
  match async_get_device dr [(DOMAIN, uid connection)] with
  | None => bus
  | Some device =>
      foldl (λ bus alert,
               bus ++ [{| event_type := EVENT_PLUM_ECOMAX_ALERT;
                          event_data := alert_event_data connection device alert |}])
            bus alerts
  end.

(** *** Migration *)

(** [pyplumio]'s [ProductInfo], as far as the migration reads it. *)
Record ProductInfo := { product_type : Z; product_id : Z }.

(** What the controller answers to each query of one migration run;
    [Raise TimeoutError] is a query that timed out.  The result of
    [async_get_sub_devices], whose body is not among the sources, is one
    of the answers. *)
Record Controller := {
  get_ecomax : result unit;                  (* connection.get(ECOMAX, ...) *)
  get_product_first : result ProductInfo;    (* device.get(ATTR_PRODUCT, ...), step 1,2 -> 3 *)
  get_sub_devices : result value;            (* async_get_sub_devices(device) *)
  get_product_second : result ProductInfo }. (* device.get(ATTR_PRODUCT, ...), step 6 -> 7 *)

(** The config entry object, the entries handed to
    [hass.config_entries.async_update_entry] so far, and the connection. *)
Record Hass := {
  config_entry : ConfigEntry;
  persisted : list ConfigEntry;
  connected : bool }.

Definition get_version : M Hass Z := gets (λ h, version (config_entry h)).

(** [config_entry.version = v] *)
Definition set_version (v : Z) : M Hass unit :=
  modify (λ h, {| config_entry := {| version := v; data := data (config_entry h) |};
                  persisted := persisted h; connected := connected h |}).

(** [hass.config_entries.async_update_entry(config_entry, data=data)] *)
Definition async_update_entry (new_data : gmap string value) : M Hass unit :=
  modify (λ h,
    let e := {| version := version (config_entry h); data := new_data |} in
    {| config_entry := e; persisted := persisted h ++ [e];
       connected := connected h |}).

Definition set_connected (b : bool) : M Hass unit :=
  modify (λ h, {| config_entry := config_entry h; persisted := persisted h;
                  connected := b |}).

(** Building the connection handler and [connection.connect()] are taken
    to succeed; the local [data] starts as a copy of the entry's data. *)
Definition async_migrate_entry (controller : Controller) : M Hass bool :=
  set_connected true;;
  data ← gets (λ h, data (config_entry h));
  c ← try_except
    (_ ← lift (get_ecomax controller);
     v ← get_version;
     data ← (if ((v =? 1) || (v =? 2))%Z then
               product ← lift (get_product_first controller);
               set_version 3;;
               mret (<[CONF_PRODUCT_TYPE := VInt (product_type product)]> data)
             else mret data);
     v ← get_version;
     data ← (if (v =? 3)%Z then
               model ← lift (getitem data CONF_MODEL);
               match model with
               | VStr model_name =>
                   set_version 4;;
                   mret (<[CONF_MODEL := VStr (format_model_name model_name)]> data)
               | _ => raise TypeError
               end
             else mret data);
     v ← get_version;
     data ← (if ((v =? 4) || (v =? 5))%Z then
               let data := delete CONF_CAPABILITIES data in
               sub_devices ← lift (get_sub_devices controller);
               set_version 6;;
               mret (<[CONF_SUB_DEVICES := sub_devices]> data)
             else mret data);
     v ← get_version;
     data ← (if (v =? 6)%Z then
               product ← lift (get_product_second controller);
               set_version 7;;
               mret (<[CONF_PRODUCT_ID := VInt (product_id product)]> data)
             else mret data);
     async_update_entry data;;
     set_connected false;;
     mret Normal)
    is_timeout
    (mret (Return false));
  match c with
  | Return b => mret b
  | Normal => mret true
  end.

End Init.

(** ** [connection.py] *)
Module Connection.
Import Py Const.

Definition ATTR_WATER_HEATER_TEMP : string := "water_heater_temp".

(** A mixer as discovery reads it: [mixer.index] and [mixer.data]. *)
Record Mixer := { index : Z; mixer_data : gmap string value }.

(** A value of [device.data]: the mixer collection, iterated as a
    sequence of mixers, or anything else. *)
Inductive devvalue : Type :=
| Scalar (v : value)
| Mixers (ms : list Mixer).

(** [loaded] tells whether [device.get_value(ATTR_LOADED)] answers within
    the timeout of the decorator. *)
Record Device := { loaded : bool; data : gmap string devvalue }.

(** [f"mixer_{mixer.index}_{x}"] *)
Definition mixer_capability (i : Z) (x : string) : string :=
  "mixer_" +:+ pretty i +:+ "_" +:+ x.

Definition async_get_device_capabilities (device : Device)
    : result (gset string) :=
  if negb (loaded device) then Raise TimeoutError else
  let capabilities : gset string := dom (data device) in
  capabilities ←
    (if bool_decide (ATTR_MIXERS ∈ capabilities) then
       match data device !! ATTR_MIXERS with
       | Some (Mixers ms) =>
           Ok (foldl (λ caps mixer,
                        caps ∪ set_map (mixer_capability (index mixer))
                                       (dom (mixer_data mixer)))
                     capabilities ms)
       | _ => Raise TypeError
       end
     else Ok capabilities);
  Ok (if bool_decide (ATTR_WATER_HEATER_TEMP ∈ capabilities)
      then capabilities ∪ {[ATTR_WATER_HEATER]}
      else capabilities).

End Connection.

(** ** [services.py] *)
Module Services.
Import PyStr Py Datetime HA Const.

Record ProductInfo := { uid : string }.
(** [pyplumio]'s parameter object *)
Record Param := { value : Z; min_value : Z; max_value : Z }.

(** A mixer has [index] and [parent]; the controller has neither.
    [device.get(name)] gives the parameter or raises. *)
Record Mixer := {
  index : Z;
  mixer_get : string → result Param;
  parent_product : option ProductInfo }.   (* parent.get_nowait(ATTR_PRODUCT) *)

Record EcoMAX := {
  ecomax_get : string → result Param;
  product : option ProductInfo;            (* get_nowait(ATTR_PRODUCT) *)
  mixers : option (gmap Z Mixer) }.        (* data.get(ATTR_MIXERS) *)

Inductive Device : Type :=
| Main (e : EcoMAX)
| Sub (m : Mixer).

(** The connection of [connection.py]: the device [async_setup] found, if
    it has run. *)
Record EcomaxConnection := { _device : option EcoMAX }.

(** The [device] property; [ConfigEntryNotReady] is a
    [HomeAssistantError]. *)
Definition device (self : EcomaxConnection) : result EcoMAX :=
  match _device self with
  | None => Raise (HomeAssistantError "Device not found")
  | Some d => Ok d
  end.

Definition async_extract_target_device (device_id : string)
    (dr : list DeviceEntry) (connection : EcomaxConnection) : result Device :=
  match async_get dr device_id with
  | None =>
      Raise (HomeAssistantError
               ("Selected device '" +:+ device_id
                +:+ "' was not found, please try again"))
  | Some entry =>
      match identifiers entry with
      | [] => Raise IndexError
      | (_, identifier) :: _ =>
          if contains "-mixer-" identifier then
            match last (split "-" 3 identifier) with
            | None => Raise IndexError
            | Some field =>
                index ← py_int field;
                ecomax ← device connection;
                let mixers := default ∅ (mixers ecomax) in
                match mixers !! index with
                | Some mixer => Ok (Sub mixer)
                | None => ecomax ← device connection; Ok (Main ecomax)
                end
            end
          else ecomax ← device connection; Ok (Main ecomax)
      end
  end.

(** The [dict] returned for one parameter. *)
Record ParameterRecord := {
  rec_name : string;
  rec_value : Z;
  rec_min_value : Z;
  rec_max_value : Z;
  device_type : string;
  device_uid : string;
  device_index : Z }.

Definition device_get (device : Device) (name : string) : result Param :=
  match device with
  | Main e => ecomax_get e name
  | Sub m => mixer_get m name
  end.

(** [device.__class__.__name__.lower()] *)
Definition class_name_lower (device : Device) : string :=
  match device with
  | Main _ => "ecomax"
  | Sub _ => "mixer"
  end.

Definition async_get_device_parameter (device : Device) (name : string)
    : result (option ParameterRecord) :=
  match device_get device name with
  | Raise ParameterNotFoundError | Raise TimeoutError => Ok None
  | Raise e => Raise e
  | Ok parameter =>
      let product :=
        match device with
        | Sub m => parent_product m
        | Main e => product e
        end in
      let device_uid :=
        match product with
        | Some p => uid p
        | None => "unknown"
        end in
      Ok (Some {| rec_name := name;
                  rec_value := value parameter;
                  rec_min_value := min_value parameter;
                  rec_max_value := max_value parameter;
                  device_type := class_name_lower device;
                  device_uid := device_uid;
                  device_index :=
                    match device with
                    | Sub m => (index m + 1)%Z
                    | Main _ => 0%Z
                    end |})
  end.

(** [[await f(x) for x in xs]]: one call after the other, up to the first
    that raises. *)
Fixpoint await_each {A B} (f : A → result B) (xs : list A) : result (list B) :=
  match xs with
  | [] => Ok []
  | x :: xs' => y ← f x; ys ← await_each f xs'; Ok (y :: ys)
  end.

(** [bool(d)] of a parameter [dict]: it has seven keys. *)
Definition truthy (r : ParameterRecord) : bool := true.

(** [devices] is the set of resolved devices in its iteration order; the
    result is the list under the key [parameters]. *)
Definition async_get_parameter_service (devices : list Device) (name : string)
    : result (list ParameterRecord) :=
  found ← await_each (λ device, async_get_device_parameter device name) devices;
  let parameters := omap (λ parameter, parameter) found in
  if negb (existsb truthy parameters) then
    Raise (HomeAssistantError
             ("Couldn't get " +:+ name +:+ " parameter, check logs for more info"))
  else Ok parameters.

(** [pyplumio.helpers.schedule.ScheduleDay] *)
Record ScheduleDay := { intervals : list bool }.

(** The module-level [dt.datetime.strptime(START_OF_DAY, TIME_FORMAT)].
    It is evaluated once, when the module is loaded, and would raise
    [ValueError] there if the text did not have the format; it has, and
    the value is what the parse returns. *)
Definition START_OF_DAY_parsed : is_Some (strptime START_OF_DAY TIME_FORMAT) :=
  mk_is_Some _ _ eq_refl.

Definition START_OF_DAY_DT : datetime := is_Some_proj START_OF_DAY_parsed.

Definition async_schedule_day_to_dict (schedule_day : ScheduleDay)
    : gmap string string :=
  dict_of
    (λ '(index, _),
       strftime (add_minutes START_OF_DAY_DT (30 * Z.of_nat index)) TIME_FORMAT)
    (λ '(_, value), if value : bool then STATE_DAY else STATE_NIGHT)
    (enumerate (intervals schedule_day)).

End Services.

(** ** [logbook.py] *)
Module Logbook.
Import Py HA Const.

(** [LOGBOOK_ENTRY_NAME] and [LOGBOOK_ENTRY_MESSAGE] of Home Assistant. *)
Definition LOGBOOK_ENTRY_NAME : string := "name".
Definition LOGBOOK_ENTRY_MESSAGE : string := "message".

(** The members of [pyplumio.const.AlertType] the module names; their
    integer values belong to the library. *)
Record AlertType := {
  POWER_LOSS : Z;
  BOILER_TEMP_SENSOR_FAILURE : Z;
  MAX_BOILER_TEMP_EXCEEDED : Z;
  FEEDER_TEMP_SENSOR_FAILURE : Z;
  MAX_FEEDER_TEMP_EXCEEDED : Z;
  EXHAUST_TEMP_SENSOR_FAILURE : Z;
  KINDLING_FAILURE : Z;
  FAN_FAILURE : Z }.

(** The dict display [ALERT_TYPES]: a later item replaces an earlier one
    with an equal key. *)
Definition ALERT_TYPES (t : AlertType) : gmap Z string :=
  <[FAN_FAILURE t := "Encountered fan failure"]>
  (<[KINDLING_FAILURE t := "Encountered kindling failure"]>
  (<[EXHAUST_TEMP_SENSOR_FAILURE t := "Exhaust temperature sensor failed"]>
  (<[MAX_FEEDER_TEMP_EXCEEDED t := "Maximum feeder temperature exceeded"]>
  (<[FEEDER_TEMP_SENSOR_FAILURE t := "Encountered feeder temperature sensor failure"]>
  (<[MAX_BOILER_TEMP_EXCEEDED t := "Maximum boiler temperature exceeded"]>
  (<[BOILER_TEMP_SENSOR_FAILURE t := "Encountered boiler temperature sensor failure"]>
  (<[POWER_LOSS t := "Encountered power loss"]> ∅))))))).

(** The double quote. *)
Definition dquote : string := String "034"%char "".

Section Describe.
(** How a list or a set prints in an f-string; integers and strings print
    as below. *)
Context (repr : value → string).

(** [f"{v}"] *)
Definition py_str (v : value) : string :=
  match v with
  | VInt z => pretty z
  | VStr s => s
  | _ => repr v
  end.

(** [ALERT_TYPES.get(alert_code, default)]: a list or a set cannot be
    hashed; a string equals no key. *)
Definition alert_types_get (t : AlertType) (alert_code : value)
    (fallback : string) : result string :=
  match alert_code with
  | VInt z => Ok (default fallback (ALERT_TYPES t !! z))
  | VStr _ => Ok fallback
  | VList _ | VSet _ => Raise TypeError
  end.

Definition async_describe_alert_event (t : AlertType) (event : Event)
    : result (gmap string string) :=
  alert_code ← getitem (event_data event) ATTR_CODE;
  start_time ← getitem (event_data event) ATTR_FROM;
  let time_string := "from " +:+ py_str start_time in
  let time_string :=
    match getitem (event_data event) ATTR_TO with
    | Ok end_time => time_string +:+ " to " +:+ py_str end_time
    | Raise _ => time_string
    end in
  alert_string ←
    alert_types_get t alert_code
      ("Encountered alert with code " +:+ dquote +:+ py_str alert_code
       +:+ dquote);
  Ok (<[LOGBOOK_ENTRY_MESSAGE := alert_string +:+ " " +:+ time_string]>
        (<[LOGBOOK_ENTRY_NAME := "ecoMAX"]> ∅)).
End Describe.

End Logbook.

(** ** [connection.py]: the [EcomaxConnection] object *)
Module Coordinator.
Import Py HA Const Connection.

(** The entry of the connection, the device found by [async_setup] if it
    has run, and the entries handed to
    [hass.config_entries.async_update_entry] so far. *)
Record EcomaxConnection := {
  entry : ConfigEntry;
  _device : option Device;
  updated : list ConfigEntry }.

(** The [device] property; [ConfigEntryNotReady] is a
    [HomeAssistantError]. *)
Definition device (self : EcomaxConnection) : result Device :=
  match _device self with
  | None => Raise (HomeAssistantError "Device not found")
  | Some d => Ok d
  end.

(** The [model] and [capabilities] properties. *)
Definition model (self : EcomaxConnection) : result value :=
  getitem (HA.data (entry self)) CONF_MODEL.
Definition capabilities (self : EcomaxConnection) : result value :=
  getitem (HA.data (entry self)) CONF_CAPABILITIES.

Definition async_update_device_capabilities : M EcomaxConnection unit :=
  data ← gets (λ self, HA.data (entry self));
  d ← (λ self, (self, device self));
  found ← lift (async_get_device_capabilities d);
  let data := <[CONF_CAPABILITIES := VSet found]> data in
  modify (λ self,
    let e := {| version := version (entry self); HA.data := data |} in
    {| entry := e; _device := _device self; updated := updated self ++ [e] |}).

End Coordinator.

(** ** [services.py]: the services that write, and the schedules *)
Module ServiceCalls.
Import PyStr Py Datetime HA Const Services.

(** [[await f(x) for x in xs]] in code that keeps a state. *)
Fixpoint for_each {S A B} (f : A → M S B) (xs : list A) : M S (list B) :=
  match xs with
  | [] => mret []
  | x :: xs' => y ← f x; ys ← for_each f xs'; mret (y :: ys)
  end.

(** *** set_parameter *)

(** What [device.set(name, value)] does: it returns a [bool], or raises
    [ParameterNotFoundError], [TimeoutError] or [ValueError(msg)]. *)
Inductive SetOutcome : Type :=
| Accepted (confirmed : bool)
| NotFound
| TimedOut
| Invalid (msg : string).

Section SetParameter.
(** The value of the call: a positive float, or [on] or [off]. *)
Context {V : Type}.

(** A device as the service writes to it. *)
Record Writable := { ident : string; set : string → V → SetOutcome }.

(** The state is the list of calls of [device.set] made so far. *)
Definition async_set_device_parameter (device : Writable) (name : string)
    (value : V) : M (list (string * string * V)) bool :=
  modify (λ calls, calls ++ [(ident device, name, value)]);;
  match set device name value with
  | Accepted confirmed => mret confirmed
  | NotFound | TimedOut => mret false
  | Invalid msg =>
      raise (HomeAssistantError ("Couldn't set parameter: " +:+ msg))
  end.

Definition async_set_parameter_service (devices : list Writable)
    (name : string) (value : V) : M (list (string * string * V)) unit :=
  results ← for_each (λ device, async_set_device_parameter device name value)
                     devices;
  if negb (existsb (λ b : bool, b) results) then
    raise (HomeAssistantError
             ("Couldn't set parameter '" +:+ name
              +:+ "', please check logs for more info"))
  else mret ().
End SetParameter.

(** *** get_schedule and set_schedule *)

(** The service schemas admit the names of [WEEKDAYS] only. *)
Inductive Weekday : Type :=
| Monday | Tuesday | Wednesday | Thursday | Friday | Saturday | Sunday.

(** Modelled from the spec: [WEEKDAYS] of [const.py] is not among the
    sources; the spec speaks of seven fixed weekday names. *)
Definition weekday_name (w : Weekday) : string :=
  match w with
  | Monday => "monday" | Tuesday => "tuesday" | Wednesday => "wednesday"
  | Thursday => "thursday" | Friday => "friday" | Saturday => "saturday"
  | Sunday => "sunday"
  end.

#[export] Instance Weekday_eq_dec : EqDecision Weekday.
Proof. solve_decision. Defined.

(** A schedule object: [getattr(schedule, weekday)]. *)
Abbreviation Schedule := (Weekday → ScheduleDay).

Definition not_supported (schedule_type : string) : exn :=
  HomeAssistantError
    (schedule_type
     +:+ " schedule is not supported by the device, check logs for more info").

(** The result is the dictionary under the key [schedule]. *)
Definition async_get_schedule_service (schedules : gmap string Schedule)
    (schedule_type : string) (weekdays : list Weekday)
    : result (gmap string (gmap string string)) :=
  match schedules !! schedule_type with
  | None => Raise (not_supported schedule_type)
  | Some schedule =>
      Ok (dict_of weekday_name
                  (λ weekday, async_schedule_day_to_dict (schedule weekday))
                  weekdays)
  end.

(** [s[:-3]] *)
Definition drop_last3 (s : string) : string := take (String.length s - 3) s.

(** What [schedule_day.set_state(preset, start, end)] does to a day: it
    edits it, or raises [ValueError]; either way [day] is the day
    afterwards. *)
Inductive SetState : Type :=
| Edited (day : ScheduleDay)
| Unparsable (day : ScheduleDay).

(** The schedule objects of the device, shared with every reader, and the
    calls of [schedule.commit()]: the type and the days sent. *)
Record Schedules := {
  in_memory : gmap string Schedule;
  committed : list (string * Schedule) }.

(** [getattr(schedule, weekday)] becomes [day] in the schedule of the
    type. *)
Definition store_day (schedule_type : string) (weekday : Weekday)
    (day : ScheduleDay) : M Schedules unit :=
  modify (λ st,
    {| in_memory :=
         alter (λ schedule w, if decide (w = weekday) then day else schedule w)
               schedule_type (in_memory st);
       committed := committed st |}).

Section SetSchedule.
Context (set_state : ScheduleDay → string → string → string → SetState).

Fixpoint edit_days (schedule_type : string) (schedule : Schedule)
    (weekdays : list Weekday) (preset start_time end_time : string)
    : M Schedules Schedule :=
  match weekdays with
  | [] => mret schedule
  | weekday :: weekdays' =>
      match set_state (schedule weekday) preset
              (drop_last3 start_time) (drop_last3 end_time) with
      | Edited day =>
          store_day schedule_type weekday day;;
          edit_days schedule_type
            (λ w, if decide (w = weekday) then day else schedule w)
            weekdays' preset start_time end_time
      | Unparsable day =>
          store_day schedule_type weekday day;;
          raise (HomeAssistantError
                   ("Error while trying to parse time interval for "
                    +:+ schedule_type +:+ " schedule"))
      end
  end.

Definition async_set_schedule_service (schedule_type : string)
    (weekdays : list Weekday) (preset start_time end_time : string)
    : M Schedules unit :=
  schedules ← gets in_memory;
  match schedules !! schedule_type with
  | None => raise (not_supported schedule_type)
  | Some schedule =>
      edited ← edit_days schedule_type schedule weekdays preset
                 start_time end_time;
      modify (λ st, {| in_memory := in_memory st;
                       committed := committed st ++ [(schedule_type, edited)] |})
  end.
End SetSchedule.

End ServiceCalls.

(** ** [switch.py] *)
Module Switch.
Import Py.

(** A parameter value: a number, or a state name. *)
Inductive pvalue : Type :=
| PInt (z : Z)
| PStr (s : string).

#[export] Instance pvalue_eq_dec : EqDecision pvalue.
Proof. solve_decision. Defined.

Record EcomaxSwitchEntityDescription := {
  key : string;
  name : string;
  state_off : pvalue;
  state_on : pvalue }.

(** The entity, the calls of [device.set_value] and the states written
    with [async_write_ha_state], oldest first. *)
Record EcomaxSwitch := {
  entity_description : EcomaxSwitchEntityDescription;
  _attr_available : bool;
  _attr_is_on : option bool;
  set_values : list (string * pvalue);
  written : list (option bool) }.

(** [EcomaxSwitch(connection, description)] *)
Definition new (description : EcomaxSwitchEntityDescription) : EcomaxSwitch :=
  {| entity_description := description; _attr_available := false;
     _attr_is_on := None; set_values := []; written := [] |}.

(** [device.set_value(..., await_confirmation=False)] is taken to return. *)
Definition switch_to (value : pvalue) (is_on : bool) (self : EcomaxSwitch)
    : EcomaxSwitch :=
  {| entity_description := entity_description self;
     _attr_available := _attr_available self;
     _attr_is_on := Some is_on;
     set_values := set_values self ++ [(key (entity_description self), value)];
     written := written self ++ [Some is_on] |}.

Definition async_turn_on (self : EcomaxSwitch) : EcomaxSwitch :=
  switch_to (state_on (entity_description self)) true self.

Definition async_turn_off (self : EcomaxSwitch) : EcomaxSwitch :=
  switch_to (state_off (entity_description self)) false self.

(** The dict display [{state_on: True, state_off: False}] looked up at
    [value]: the second item replaces the first when the keys are equal. *)
Definition states (description : EcomaxSwitchEntityDescription)
    (value : pvalue) : option bool :=
  if decide (value = state_off description) then Some false
  else if decide (value = state_on description) then Some true
  else None.

(** [async_update(value)], [value] being [value.value] of the parameter. *)
Definition async_update (value : pvalue) (self : EcomaxSwitch) : EcomaxSwitch :=
  let is_on := states (entity_description self) value in
  {| entity_description := entity_description self;
     _attr_available := _attr_available self;
     _attr_is_on := is_on;
     set_values := set_values self;
     written := written self ++ [is_on] |}.

End Switch.

(** ** [__init__.py]: setting an entry up and unloading it *)
Module Entry.
Import Py HA Const.

(** [hass.data]: the dictionary under [DOMAIN], if there is one, from entry
    id to the name of the connection held for it; and the connections
    closed so far, by name. *)
Record Hass := {
  domain_data : option (gmap string string);
  closed : list string }.

(** [async_setup_entry], given what [connection.async_setup()] does;
    [ConfigEntryNotReady] is a [HomeAssistantError].  Registering the
    services, the events and the platforms is taken to succeed. *)
Definition async_setup_entry (entry_id name : string) (setup : result unit)
    : M Hass bool :=
  try_except (lift setup) is_timeout
    (raise (HomeAssistantError ("Timed out while connecting to " +:+ name)));;
  modify (λ hass,
    {| domain_data := Some (<[entry_id := name]> (default ∅ (domain_data hass)));
       closed := closed hass |});;
  mret true.

(** [hass.data[DOMAIN][entry.entry_id]] *)
Definition connection_of (entry_id : string) : M Hass string :=
  λ hass,
    (hass, d ← match domain_data hass with
               | Some d => Ok d
               | None => Raise KeyError
               end;
           getitem d entry_id).

(** [async_unload_entry], given what unloading the platforms returns. *)
Definition async_unload_entry (entry_id : string) (unload_ok : bool)
    : M Hass bool :=
  (if unload_ok then
     try_except
       (connection ← connection_of entry_id;
        modify (λ hass,
          {| domain_data := delete entry_id <$> domain_data hass;
             closed := closed hass ++ [connection] |}))
       (λ e, match e with KeyError => true | _ => false end)
       (mret ())
   else mret ());;
  mret unload_ok.

End Entry.

(** ** Vocabulary of the statements *)
Module Shape.
Import PyStr.

Definition is_letter (a : ascii) : bool := is_upper a || is_lower a.
Definition not_newline (a : ascii) : bool := negb (is_newline a).
Definition newline : string := String "010"%char "".

(** Letters, whitespace, three or more digits and a non-empty rest on one
    line, possibly closed by a newline. *)
Definition model_shape (L W D R nl s : string) : Prop :=
  s = L +:+ W +:+ D +:+ R +:+ nl ∧
  all is_letter L = true ∧ 1 ≤ String.length L ∧
  all is_space W = true ∧
  all is_digit D = true ∧ 3 ≤ String.length D ∧
  all not_newline R = true ∧ 1 ≤ String.length R ∧
  (nl = "" ∨ nl = newline).

(** The mixers a device snapshot holds: the collection under the mixer
    key, none when the key is absent. *)
Definition mixers_of (device : Connection.Device) (ms : list Connection.Mixer)
    : Prop :=
  Connection.data device !! Const.ATTR_MIXERS = Some (Connection.Mixers ms)
  ∨ (Connection.data device !! Const.ATTR_MIXERS = None ∧ ms = []).

(** The same snapshot with the mixers iterated in the order [ms]. *)
Definition with_mixers (device : Connection.Device) (ms : list Connection.Mixer)
    : Connection.Device :=
  {| Connection.loaded := Connection.loaded device;
     Connection.data :=
       <[Const.ATTR_MIXERS := Connection.Mixers ms]> (Connection.data device) |}.


(** [HH:MM] of the start of slot [i], thirty minutes a slot from
    midnight. *)
Definition slot_key (i : nat) : string :=
  Datetime.d2 (Z.of_nat i * 30 / 60) +:+ ":"
  +:+ Datetime.d2 (Z.of_nat i * 30 mod 60).

(** The same time with seconds, [HH:MM:SS], as the spec words the keys of
    a decoded day. *)
Definition slot_key_seconds (i : nat) : string := slot_key i +:+ ":00".

(** The day [set_state] leaves behind, whether it took the edit or not. *)
Definition day_after (outcome : ServiceCalls.SetState) : Services.ScheduleDay :=
  match outcome with
  | ServiceCalls.Edited day | ServiceCalls.Unparsable day => day
  end.

(** The text after a run of [p]-characters cannot extend the run. *)
Definition stops (p : ascii → bool) (t : string) : Prop :=
  match t with
  | EmptyString => True
  | String a _ => p a = false
  end.

(** [YYYY-MM-DD HH:MM:SS] *)
Definition timestamp (t : Datetime.datetime) : string :=
  Datetime.d4 (Datetime.year t) +:+ "-" +:+ Datetime.d2 (Datetime.month t)
  +:+ "-" +:+ Datetime.d2 (Datetime.day t) +:+ " "
  +:+ Datetime.d2 (Datetime.hour t) +:+ ":" +:+ Datetime.d2 (Datetime.minute t)
  +:+ ":" +:+ Datetime.d2 (Datetime.second t).

(** What a device answers to the set-parameter service: confirmed, or
    anything that counts as not set. *)
Definition confirms {V} (name : string) (value : V)
    (device : ServiceCalls.Writable) : bool :=
  match ServiceCalls.set device name value with
  | ServiceCalls.Accepted confirmed => confirmed
  | _ => false
  end.

Definition rejects {V} (name : string) (value : V)
    (device : ServiceCalls.Writable) : Prop :=
  ∃ msg, ServiceCalls.set device name value = ServiceCalls.Invalid msg.

(** Any character but the underscore. *)
Definition not_underscore (a : ascii) : bool := negb (Ascii.eqb a "_").

End Shape.

(** ** Sample inputs *)
Module Sample.
Import Py HA Const.

Section Migration.
Import Init.

(** A version-1 entry as the config flow stored it, and a version-6 one. *)
Definition entry_v1 : Hass :=
{| config_entry :=
     {| version := 1;
        data := {[ "model" := VStr "EM350P2-ZF";
                   "capabilities" := VSet {[ "mixers"; "water_heater" ]} ]} |};
   persisted := []; connected := false |}.

Definition entry_v6 : Hass :=
{| config_entry :=
     {| version := 6;
        data := {[ "model" := VStr "ecoMAX 350P2-ZF";
                   "product_type" := VInt 0;
                   "sub_devices" := VList ["mixers"] ]} |};
   persisted := []; connected := false |}.

Definition entry_v8 : Hass :=
{| config_entry :=
     {| version := 8; data := {[ "model" := VStr "ecoMAX 350P2-ZF" ]} |};
   persisted := []; connected := false |}.

Definition entry_v4 : Hass :=
  {| config_entry :=
       {| version := 4;
          data := {[ "model" := VStr "ecoMAX 350P2-ZF";
                     "product_type" := VInt 0;
                     "capabilities" := VSet {[ "mixers" ]} ]} |};
     persisted := []; connected := false |}.

Definition entry_no_model : Hass :=
  {| config_entry := {| version := 2; data := {[ "uid" := VStr "D251PAKR" ]} |};
     persisted := []; connected := false |}.

Definition product_350 : ProductInfo := {| product_type := 0; product_id := 90 |}.

(** Every query is answered. *)
Definition responsive : Controller :=
{| get_ecomax := Ok ();
   get_product_first := Ok product_350;
   get_sub_devices := Ok (VList ["mixers"]);
   get_product_second := Ok product_350 |}.

(** The sub-device recomputation times out, the queries before it are
  answered. *)
Definition sub_devices_time_out : Controller :=
{| get_ecomax := Ok ();
   get_product_first := Ok product_350;
   get_sub_devices := Raise TimeoutError;
   get_product_second := Ok product_350 |}.

End Migration.

Section Alerts.
Import Init Datetime.

Definition boiler : EcomaxConnection :=
{| name := "192.168.1.10"; uid := "D251PAKR3GCPZ1K8G05G0" |}.

Definition registry : list DeviceEntry :=
[ {| id := "0a1b2c"; identifiers := [("plum_ecomax", "D251PAKR3GCPZ1K8G05G0")] |} ].

(** An alert that is still on, and one that is over. *)
Definition ongoing : Alert :=
{| code := 26;
   from_dt := {| year := 2023; month := 9; day := 4;
                 hour := 7; minute := 5; second := 0 |};
   to_dt := None |}.

Definition concluded : Alert :=
{| code := 0;
   from_dt := {| year := 2023; month := 9; day := 3;
                 hour := 22; minute := 10; second := 41 |};
   to_dt := Some {| year := 2023; month := 9; day := 3;
                    hour := 23; minute := 0; second := 9 |} |}.
End Alerts.

Section Capabilities.
Import Connection.

(** A controller with two mixers and a water heater. *)
Definition two_mixers : list Mixer :=
[ {| index := 0; mixer_data := {[ "current_temp" := VInt 31; "pump" := VInt 1 ]} |};
  {| index := 1; mixer_data := {[ "current_temp" := VInt 28 ]} |} ].

Definition snapshot : Device :=
{| loaded := true;
   data := {[ "heating_temp" := Scalar (VInt 64);
              "water_heater_temp" := Scalar (VInt 48);
              "mixers" := Mixers two_mixers ]} |}.
End Capabilities.

Section Coordinator.
Import Coordinator.

(** A connection after [async_setup], its entry still without
    capabilities. *)
Definition fresh_connection : EcomaxConnection :=
  {| entry := {| version := 7;
                 data := {[ "model" := VStr "ecoMAX 350P2-ZF";
                            "uid" := VStr "D251PAKR3GCPZ1K8G05G0" ]} |};
     _device := Some snapshot;
     updated := [] |}.
End Coordinator.

Section Services.
Import Services.

Definition product_info : ProductInfo := {| uid := "D251PAKR3GCPZ1K8G05G0" |}.

(** Each mixer knows [mix_set_temp]; nothing else is found on it. *)
Definition mixer_n (i target : Z) : Mixer :=
{| index := i;
   mixer_get := λ name,
     if String.eqb name "mix_set_temp"
     then Ok {| value := target; min_value := 20; max_value := 60 |}
     else Raise ParameterNotFoundError;
   parent_product := Some product_info |}.

(** The controller knows [heating_target_temp] and is too slow on
  [fuel_level]. *)
Definition controller : EcoMAX :=
{| ecomax_get := λ name,
     if String.eqb name "heating_target_temp"
     then Ok {| value := 65; min_value := 40; max_value := 80 |}
     else if String.eqb name "fuel_level" then Raise TimeoutError
     else Raise ParameterNotFoundError;
   product := Some product_info;
   mixers := Some {[ 0%Z := mixer_n 0 35; 1%Z := mixer_n 1 40 ]} |}.

Definition plum : EcomaxConnection := {| _device := Some controller |}.

(** The same connection before [async_setup] has found the device. *)
Definition not_ready : EcomaxConnection := {| _device := None |}.

Definition devices_registry : list DeviceEntry :=
[ {| id := "main"; identifiers := [("plum_ecomax", "D251PAKR3GCPZ1K8G05G0")] |};
  {| id := "mixer1"; identifiers := [("plum_ecomax", "D251PAKR3GCPZ1K8G05G0-mixer-1")] |};
  {| id := "mixer2"; identifiers := [("plum_ecomax", "D251PAKR3GCPZ1K8G05G0-mixer-2")] |};
  {| id := "dashed"; identifiers := [("plum_ecomax", "a-b-c-mixer-2")] |} ].

(** Day from 06:00 to 22:00, night around it. *)
Definition working_day : ScheduleDay :=
{| intervals := replicate 12 false ++ replicate 32 true ++ replicate 4 false |}.
End Services.

Section ServiceCalls.
Import ServiceCalls.

(** A pump that confirms every write, and a valve that takes
    [mix_set_temp] up to 60 and rejects more. *)
(** The same day all week. *)
Definition week : Schedule := λ _, working_day.

Definition heating_only : gmap string Schedule := {[ "heating" := week ]}.

(** A [set_state] that takes every call and turns the whole day to day. *)
Definition all_day (day : Services.ScheduleDay) (preset start_time end_time : string)
    : SetState :=
  Edited {| Services.intervals := replicate 48 true |}.

Definition pump : @Writable Z :=
  {| ident := "pump"; set := λ _ _, Accepted true |}.

Definition valve : @Writable Z :=
  {| ident := "valve";
     set := λ name value,
       if String.eqb name "mix_set_temp"
       then (if (value <=? 60)%Z then Accepted false else Invalid "out of range")
       else NotFound |}.
End ServiceCalls.

Section Switch.
Import Switch.

(** The water heater pump switch: off is 0, on is 2. *)
Definition pump_switch : EcomaxSwitchEntityDescription :=
  {| key := "water_heater_work_mode"; name := "Water heater pump switch";
     state_off := PInt 0; state_on := PInt 2 |}.
End Switch.

End Sample.

(** * Part II: verification *)

Import PyStr Re Shape.

(** ** Strings *)
Section StringFacts.
Implicit Types (s t : string) (p : ascii → bool).

Lemma str_app_assoc s1 s2 s3 : (s1 +:+ s2) +:+ s3 = s1 +:+ (s2 +:+ s3).
Proof. induction s1 as [|a s1 IH]; simpl; [done | by rewrite IH]. Qed.

Lemma str_app_nil_r s : s +:+ "" = s.
Proof. induction s as [|a s IH]; simpl; [done | by rewrite IH]. Qed.

Lemma str_length_app s1 s2 :
  String.length (s1 +:+ s2) = String.length s1 + String.length s2.
Proof. induction s1 as [|a s1 IH]; simpl; [done | by rewrite IH]. Qed.

Lemma take_app_length s1 s2 : take (String.length s1) (s1 +:+ s2) = s1.
Proof. induction s1 as [|a s1 IH]; simpl; [by destruct s2 | by rewrite IH]. Qed.

Lemma all_app p s1 s2 : all p (s1 +:+ s2) = all p s1 && all p s2.
Proof.
  induction s1 as [|a s1 IH]; simpl; [done |].
  rewrite IH. by destruct (p a).
Qed.

Lemma all_impl p q s :
  (∀ a, p a = true → q a = true) → all p s = true → all q s = true.
Proof.
  intros Hpq. induction s as [|a s IH]; simpl; [done |].
  intros [Ha Hs]%andb_true_iff. rewrite (Hpq _ Ha). simpl. auto.
Qed.

Lemma span_unique p s1 s1' t t' :
  all p s1 = true → all p s1' = true → stops p t → stops p t' →
  s1 +:+ t = s1' +:+ t' → s1 = s1' ∧ t = t'.
Proof.
  revert s1'. induction s1 as [|a s1 IH]; intros [|a' s1']; simpl.
  - done.
  - intros _ [Ha' _]%andb_true_iff Ht _ ->. simpl in Ht. congruence.
  - intros [Ha _]%andb_true_iff _ _ Ht' <-. simpl in Ht'. congruence.
  - intros [_ H1]%andb_true_iff [_ H1']%andb_true_iff Ht Ht' [= -> Heq].
    destruct (IH s1' H1 H1' Ht Ht' Heq) as [-> ->]. done.
Qed.
End StringFacts.

(** ** The matcher *)
Section RepFacts.
Context {R : Type}.
Implicit Types (p : ascii → bool) (k : string → option R).

(** A successful repetition took a run of at least [lo] characters of the
    class and handed what is left to its continuation. *)
Lemma rep_sound p lo s k r :
  rep p lo s k = Some r →
  ∃ s1 s2, s = s1 +:+ s2 ∧ all p s1 = true ∧ lo ≤ String.length s1
           ∧ k s2 = Some r.
Proof.
  revert lo. induction s as [|a s IH]; intros lo H; simpl in H.
  - destruct lo; [|done]. by exists "", "".
  - destruct (p a) eqn:Hp.
    + destruct (rep p (Nat.pred lo) s k) eqn:Hr.
      * injection H as ->.
        apply IH in Hr as (s1 & s2 & -> & Hall & Hlo & Hk).
        exists (String a s1), s2. simpl. rewrite Hp, Hall.
        repeat split; [lia | done].
      * destruct lo; [|done]. by exists "", (String a s).
    + destruct lo; [|done]. by exists "", (String a s).
Qed.

(** Backtracking finds a match whenever some split of the input allows one. *)
Lemma rep_complete p lo s1 s2 k :
  all p s1 = true → lo ≤ String.length s1 → is_Some (k s2) →
  is_Some (rep p lo (s1 +:+ s2) k).
Proof.
  revert lo. induction s1 as [|a s1 IH]; intros lo Hall Hlo Hk; simpl in *.
  - assert (lo = 0) as -> by lia.
    destruct s2 as [|b s2]; simpl; [done |].
    destruct (p b); [|done]. by destruct (rep p 0 s2 k).
  - apply andb_true_iff in Hall as [-> Hall].
    destruct (IH (Nat.pred lo) Hall ltac:(lia) Hk) as [r ->]. done.
Qed.
End RepFacts.

(** ** [format_model_name] *)
Section FormatModelName.
Import Init.

Lemma space_not_letter a : is_space a = true → is_letter a = false.
Proof. destruct a as [[] [] [] [] [] [] [] []]; vm_compute; done. Qed.

Lemma digit_not_letter a : is_digit a = true → is_letter a = false.
Proof. destruct a as [[] [] [] [] [] [] [] []]; vm_compute; done. Qed.

Lemma digit_not_space a : is_digit a = true → is_space a = false.
Proof. destruct a as [[] [] [] [] [] [] [] []]; vm_compute; done. Qed.

Lemma digit_not_newline a : is_digit a = true → not_newline a = true.
Proof. destruct a as [[] [] [] [] [] [] [] []]; vm_compute; done. Qed.

Lemma length_app_sub (s1 s2 : string) :
  String.length (s1 +:+ s2) - String.length s2 = String.length s1.
Proof. rewrite str_length_app. lia. Qed.

Lemma eol_cases (nl : string) : at_eol nl = true ↔ nl = "" ∨ nl = newline.
Proof.
  split.
  - destruct nl as [|a [|b nl]]; simpl; [by left | | done].
    intros Ha. right. unfold newline. f_equal.
    destruct a as [[] [] [] [] [] [] [] []]; vm_compute in Ha; done.
  - by intros [-> | ->].
Qed.

(** What a match of the model pattern says about the subject and groups. *)
Lemma model_match_sound s m :
  re_match model_pattern s IGNORECASE = Some m →
  ∃ L W D R nl, model_shape L W D R nl s
                ∧ group m 1 = L ∧ group m 2 = D ∧ group m 3 = R.
Proof.
  unfold re_match, model_pattern. cbn [run offset rest].
  intros H.
  apply rep_sound in H as (L & t1 & -> & HL & HlenL & H).
  apply rep_sound in H as (W & t2 & -> & HW & _ & H).
  apply rep_sound in H as (D & t3 & -> & HD & HlenD & H).
  apply rep_sound in H as (R & nl & -> & HR & HlenR & H).
  destruct (at_eol nl) eqn:Hnl; [|done]. injection H as <-.
  apply eol_cases in Hnl.
  exists L, W, D, R, nl. split; [by repeat split |].
  unfold group. rewrite !length_app_sub.
  rewrite Nat.sub_0_r.
  replace (String.length L + String.length W + String.length D
           - (String.length L + String.length W))
    with (String.length D) by lia.
  replace (String.length L + String.length W + String.length D
           + String.length R
           - (String.length L + String.length W + String.length D))
    with (String.length R) by lia.
  rewrite !take_app_length. by simplify_map_eq.
Qed.

Lemma model_match_complete L W D R nl s :
  model_shape L W D R nl s → is_Some (re_match model_pattern s IGNORECASE).
Proof.
  intros (-> & HL & HlenL & HW & HD & HlenD & HR & HlenR & Hnl).
  unfold re_match, model_pattern. cbn [run offset rest].
  apply rep_complete; [done.. |].
  apply rep_complete; [done | lia |].
  apply rep_complete; [done.. |].
  apply rep_complete; [done.. |].
  apply eol_cases in Hnl. by rewrite Hnl.
Qed.

Lemma stops_digits p (D t : string) :
  (∀ a, is_digit a = true → p a = false) →
  all is_digit D = true → 1 ≤ String.length D → stops p (D +:+ t).
Proof.
  intros Hp HD Hlen. destruct D as [|a D]; simpl in *; [lia |].
  apply andb_true_iff in HD as [Ha _]. auto.
Qed.

(** The device token and the text after the whitespace do not depend on
    where the digits are cut from the rest. *)
Lemma model_shape_unique L W D R nl L' W' D' R' nl' s :
  model_shape L W D R nl s → model_shape L' W' D' R' nl' s →
  L = L' ∧ D +:+ R = D' +:+ R'.
Proof.
  intros (-> & HL & _ & HW & HD & HlenD & HR & _ & Hnl)
         (Heq & HL' & _ & HW' & HD' & HlenD' & HR' & _ & Hnl').
  assert (∀ W D t, all is_space W = true → all is_digit D = true →
            3 ≤ String.length D → stops is_letter (W +:+ D +:+ t)) as Hstop.
  { intros [|a W0] D0 t HW0 HD0 Hlen0; simpl.
    - apply (stops_digits is_letter); [apply digit_not_letter | done | lia].
    - apply andb_true_iff in HW0 as [Ha _]. by apply space_not_letter. }
  apply (span_unique is_letter) in Heq as [-> Heq]; auto.
  apply (span_unique is_space) in Heq as [-> Heq]; auto;
    try (apply (stops_digits is_space); [apply digit_not_space | done | lia]).
  split; [done |].
  rewrite <- !str_app_assoc in Heq.
  apply (span_unique not_newline) in Heq as [Heq _]; auto.
  - rewrite all_app, HR, andb_true_r.
    eapply all_impl; [apply digit_not_newline | done].
  - rewrite all_app, HR', andb_true_r.
    eapply all_impl; [apply digit_not_newline | done].
  - by destruct Hnl as [-> | ->].
  - by destruct Hnl' as [-> | ->].
Qed.

Example format_model_name_em350 :
  format_model_name "EM350P2-ZF" = "ecoMAX 350P2-ZF".
Proof. vm_compute. reflexivity. Qed.

Example format_model_name_unknown : format_model_name "unknown" = "unknown".
Proof. vm_compute. reflexivity. Qed.

(** C4, as stated, fails: the pattern is matched without regard to case,
    but the device token is compared with the upper-case literal [EM], so
    a lower-case [em] is kept. *)
Lemma format_model_name_lowercase_em :
  format_model_name "em350P2-ZF" = "em 350P2-ZF"
  ∧ format_model_name "em350P2-ZF" ≠ "ecoMAX 350P2-ZF".
Proof. split; vm_compute; [reflexivity | discriminate]. Qed.

(** C4, amended: a string made of letters, whitespace, three or more
    digits and a non-empty rest without newline (one final newline
    allowed) is rewritten to the device token, one space, the digits and
    the rest, where the token [EM], in upper case exactly, becomes
    [ecoMAX] and every other token is kept; a string of any other form is
    returned unchanged. *)
Theorem format_model_name_spec (s : string) :
  (∀ L W D R nl, model_shape L W D R nl s →
     format_model_name s
     = (if String.eqb L "EM" then "ecoMAX" else L) +:+ " " +:+ D +:+ R)
  ∧ ((∀ L W D R nl, ¬ model_shape L W D R nl s) → format_model_name s = s).
Proof.
  split.
  - intros L W D R nl Hs.
    destruct (model_match_complete _ _ _ _ _ _ Hs) as [m Hm].
    unfold format_model_name. rewrite Hm.
    apply model_match_sound in Hm as (L' & W' & D' & R' & nl' & Hs' & -> & -> & ->).
    destruct (model_shape_unique _ _ _ _ _ _ _ _ _ _ _ Hs Hs') as [-> Heq].
    by rewrite Heq.
  - intros Hno. unfold format_model_name.
    destruct (re_match model_pattern s IGNORECASE) as [m|] eqn:Hm; [|done].
    apply model_match_sound in Hm as (L & W & D & R & nl & Hs & _).
    by destruct (Hno _ _ _ _ _ Hs).
Qed.

Lemma format_model_name_spec_witness :
  model_shape "EM" "" "350" "P2-ZF" "" "EM350P2-ZF"
  ∧ format_model_name "EM350P2-ZF" = "ecoMAX 350P2-ZF".
Proof.
  assert (model_shape "EM" "" "350" "P2-ZF" "" "EM350P2-ZF") as Hs.
  { unfold model_shape. simpl. repeat split; try reflexivity; try lia.
    by left. }
  split; [exact Hs |].
  exact (proj1 (format_model_name_spec "EM350P2-ZF") _ _ _ _ _ Hs).
Defined.
End FormatModelName.


(** ** Migration of the config entry *)
Section Migration.
Import Py HA Const Init Sample.

Ltac run_migration :=
  unfold async_migrate_entry, try_except, mbind, M_bind, mret, M_ret, lift,
    gets, modify, get_version, set_version, set_connected,
    async_update_entry, raise, getitem;
  simpl.

(** C1 does not hold of the code.  The entry enters at
    version 1, the first two steps succeed and the sub-device query times
    out: the run reports failure and stores no data, yet the version of
    the entry has been moved from 1 to 4. *)
Theorem migrate_timeout_advances_version :
  async_migrate_entry sub_devices_time_out entry_v1
  = ({| config_entry := {| version := 4; data := data (config_entry entry_v1) |};
        persisted := []; connected := true |},
     Ok false).
Proof. vm_compute. reflexivity. Qed.

(** Whatever times out, a failed run hands no data to
    [async_update_entry] and the entry keeps its data. *)
Lemma migrate_failure_keeps_data ctl h h' :
  async_migrate_entry ctl h = (h', Ok false) →
  data (config_entry h') = data (config_entry h)
  ∧ persisted h' = persisted h.
Proof.
  destruct h as [[v d] ps c]. run_migration. intros H.
  repeat (case_match; simplify_eq/=); done.
Qed.

(** A time-out of the very first query of a run leaves version and data
    as they were. *)
Lemma migrate_first_query_timeout ctl h :
  get_ecomax ctl = Raise TimeoutError →
  async_migrate_entry ctl h
  = ({| config_entry := config_entry h; persisted := persisted h;
        connected := true |}, Ok false).
Proof.
  intros He. destruct h as [[v d] ps c]. run_migration. by rewrite He.
Qed.

(** C2, as stated, fails: an entry at version 8 goes through no step, is
    stored again as it is, and the run reports success; nothing raises. *)
Lemma migrate_version_8_succeeds :
  async_migrate_entry responsive entry_v8
  = ({| config_entry := config_entry entry_v8;
        persisted := [config_entry entry_v8]; connected := false |},
     Ok true).
Proof. vm_compute. reflexivity. Qed.

(** C2, amended: for an entry whose version is outside 1..6 the run takes
    no step and leaves version and data as they are; it raises no
    unsupported-version error.  When the controller is reached the
    unchanged data is handed to [async_update_entry] and the run reports
    success; when the only query made, the device fetch, times out, the
    run reports failure. *)
Theorem migrate_unhandled_version ctl h :
  ¬ (1 ≤ version (config_entry h) ≤ 6)%Z →
  (get_ecomax ctl = Ok () →
   async_migrate_entry ctl h
   = ({| config_entry := config_entry h;
         persisted := persisted h ++ [config_entry h];
         connected := false |}, Ok true))
  ∧ (get_ecomax ctl = Raise TimeoutError →
     async_migrate_entry ctl h
     = ({| config_entry := config_entry h; persisted := persisted h;
           connected := true |}, Ok false)).
Proof.
  intros Hv. split; [|apply migrate_first_query_timeout].
  intros He. destruct h as [[v d] ps c]. simpl in Hv. run_migration.
  rewrite He.
  assert (((v =? 1) || (v =? 2) = false)%Z) as -> by lia. simpl.
  assert ((v =? 3) = false)%Z as -> by lia. simpl.
  assert (((v =? 4) || (v =? 5) = false)%Z) as -> by lia. simpl.
  assert ((v =? 6) = false)%Z as -> by lia. done.
Qed.

Lemma migrate_unhandled_version_witness :
  ¬ (1 ≤ version (config_entry entry_v8) ≤ 6)%Z
  ∧ get_ecomax responsive = Ok ()
  ∧ version (config_entry (async_migrate_entry responsive entry_v8).1) = 8%Z
  ∧ (async_migrate_entry responsive entry_v8).2 = Ok true.
Proof.
  assert (¬ (1 ≤ version (config_entry entry_v8) ≤ 6)%Z) as Hv
    by (simpl; lia).
  split; [exact Hv |]. split; [reflexivity |].
  rewrite (proj1 (migrate_unhandled_version responsive entry_v8 Hv) eq_refl).
  split; reflexivity.
Defined.

(** C3: with every query answered, an entry at version 1 that holds a
    model string leaves one run at version 7 with the product type stored,
    the model reformatted, the legacy capabilities gone, the sub-devices
    and the product id stored, every other field as it was, and is handed
    to [async_update_entry] once; an entry at version 6 leaves at
    version 7 with the product id added and nothing else changed. *)
Theorem migrate_to_current :
  (∀ ctl h model p1 sd p2,
     version (config_entry h) = 1%Z →
     data (config_entry h) !! CONF_MODEL = Some (VStr model) →
     get_ecomax ctl = Ok () →
     get_product_first ctl = Ok p1 →
     get_sub_devices ctl = Ok sd →
     get_product_second ctl = Ok p2 →
     ∃ d',
       async_migrate_entry ctl h
       = ({| config_entry := {| version := 7; data := d' |};
             persisted := persisted h ++ [{| version := 7; data := d' |}];
             connected := false |}, Ok true)
       ∧ d' !! CONF_PRODUCT_TYPE = Some (VInt (product_type p1))
       ∧ d' !! CONF_MODEL = Some (VStr (format_model_name model))
       ∧ d' !! CONF_CAPABILITIES = None
       ∧ d' !! CONF_SUB_DEVICES = Some sd
       ∧ d' !! CONF_PRODUCT_ID = Some (VInt (product_id p2))
       ∧ ∀ k, k ∉ [CONF_PRODUCT_TYPE; CONF_MODEL; CONF_CAPABILITIES;
                    CONF_SUB_DEVICES; CONF_PRODUCT_ID] →
              d' !! k = data (config_entry h) !! k)
  ∧ (∀ ctl h p2,
       version (config_entry h) = 6%Z →
       get_ecomax ctl = Ok () →
       get_product_second ctl = Ok p2 →
       let d' := <[CONF_PRODUCT_ID := VInt (product_id p2)]>
                   (data (config_entry h)) in
       async_migrate_entry ctl h
       = ({| config_entry := {| version := 7; data := d' |};
             persisted := persisted h ++ [{| version := 7; data := d' |}];
             connected := false |}, Ok true)
       ∧ ∀ k, k ≠ CONF_PRODUCT_ID → d' !! k = data (config_entry h) !! k).
Proof.
  split.
  - intros ctl [[v d] ps c] model p1 sd p2 Hv Hm He H1 Hs H2.
    simpl in *. subst v.
    eexists. split.
    { run_migration. rewrite He, H1. simpl.
      rewrite lookup_insert_ne by done. rewrite Hm. simpl.
      rewrite Hs. simpl. rewrite H2. reflexivity. }
    repeat split.
    + by simplify_map_eq.
    + by simplify_map_eq.
    + by simplify_map_eq.
    + by simplify_map_eq.
    + by simplify_map_eq.
    + intros k Hk.
      rewrite !not_elem_of_cons in Hk.
      destruct Hk as (? & ? & ? & ? & ? & _).
      by simplify_map_eq.
  - intros ctl [[v d] ps c] p2 Hv He H2. simpl in *. subst v.
    split.
    + run_migration. rewrite He. simpl. rewrite H2. reflexivity.
    + intros k Hk. by rewrite lookup_insert_ne.
Qed.

Lemma migrate_to_current_witness :
  (version (config_entry entry_v1) = 1%Z
   ∧ version (config_entry (async_migrate_entry responsive entry_v1).1) = 7%Z
   ∧ data (config_entry (async_migrate_entry responsive entry_v1).1) !! CONF_MODEL
     = Some (VStr "ecoMAX 350P2-ZF"))
  ∧ (version (config_entry entry_v6) = 6%Z
     ∧ version (config_entry (async_migrate_entry responsive entry_v6).1) = 7%Z
     ∧ data (config_entry (async_migrate_entry responsive entry_v6).1) !! CONF_PRODUCT_ID
       = Some (VInt 90)).
Proof.
  split.
  - split; [reflexivity |].
    destruct (proj1 migrate_to_current responsive entry_v1 "EM350P2-ZF"
                product_350 (VList ["mixers"]) product_350
                eq_refl eq_refl eq_refl eq_refl eq_refl eq_refl)
      as (d' & -> & _ & Hmodel & _).
    split; [reflexivity | exact Hmodel].
  - split; [reflexivity |].
    destruct (proj2 migrate_to_current responsive entry_v6 product_350
                eq_refl eq_refl eq_refl) as [-> _].
    split; [reflexivity |]. simpl. by rewrite lookup_insert_eq.
Defined.
End Migration.

(** ** Alert events *)
Section AlertEvents.
Import Py Datetime HA Const Init Sample.

Lemma strftime_date_str_format t :
  strftime t DATE_STR_FORMAT = timestamp t.
Proof. reflexivity. Qed.

(** A timestamp is nineteen characters: digits around the separators. *)
Lemma timestamp_length t : String.length (timestamp t) = 19.
Proof. reflexivity. Qed.

Lemma dispatch_fold connection device alerts bus :
  foldl (λ bus alert,
           bus ++ [{| event_type := EVENT_PLUM_ECOMAX_ALERT;
                      event_data := alert_event_data connection device alert |}])
        bus alerts
  = bus ++ map (λ alert,
                  {| event_type := EVENT_PLUM_ECOMAX_ALERT;
                     event_data := alert_event_data connection device alert |})
               alerts.
Proof.
  revert bus. induction alerts as [|alert alerts IH]; intros bus; simpl.
  - by rewrite app_nil_r.
  - rewrite IH. by rewrite <- app_assoc.
Qed.

Lemma alert_event_data_fields connection device alert :
  let d := alert_event_data connection device alert in
  d !! ATTR_NAME = Some (VStr (name connection))
  ∧ d !! ATTR_DEVICE_ID = Some (VStr (id device))
  ∧ d !! ATTR_CODE = Some (VInt (code alert))
  ∧ d !! ATTR_FROM = Some (VStr (timestamp (from_dt alert)))
  ∧ d !! ATTR_TO = (λ t, VStr (timestamp t)) <$> to_dt alert.
Proof.
  unfold alert_event_data. rewrite strftime_date_str_format.
  destruct (to_dt alert) as [t|]; simpl;
    rewrite ?strftime_date_str_format; repeat split; by simplify_map_eq.
Qed.

(** C9: when the registry knows the device of the connection, a batch of
    alerts appends one event per alert to the bus, in order; each event
    carries the connection name, the id of the registry device, the alert
    code and the start as [YYYY-MM-DD HH:MM:SS], and it carries the end,
    in the same format, exactly when the alert has one. *)
Theorem alert_events_dispatched dr connection device alerts bus :
  async_get_device dr [(DOMAIN, uid connection)] = Some device →
  ∃ events,
    async_dispatch_alert_events dr connection alerts bus = bus ++ events
    ∧ length events = length alerts
    ∧ ∀ i alert, alerts !! i = Some alert →
        ∃ ev, events !! i = Some ev
          ∧ event_type ev = EVENT_PLUM_ECOMAX_ALERT
          ∧ event_data ev !! ATTR_NAME = Some (VStr (name connection))
          ∧ event_data ev !! ATTR_DEVICE_ID = Some (VStr (id device))
          ∧ event_data ev !! ATTR_CODE = Some (VInt (code alert))
          ∧ event_data ev !! ATTR_FROM = Some (VStr (timestamp (from_dt alert)))
          ∧ event_data ev !! ATTR_TO = (λ t, VStr (timestamp t)) <$> to_dt alert
          ∧ (is_Some (event_data ev !! ATTR_TO) ↔ is_Some (to_dt alert)).
Proof.
  intros Hdev. unfold async_dispatch_alert_events. rewrite Hdev.
  rewrite dispatch_fold. eexists. split; [reflexivity |].
  split; [by rewrite length_map |].
  intros i alert Hi. eexists. split.
  { rewrite list_lookup_fmap, Hi. reflexivity. }
  simpl. split; [done |].
  destruct (alert_event_data_fields connection device alert)
    as (Hn & Hd & Hc & Hf & Ht).
  repeat split; try done.
  - rewrite Ht. intros [v Hv]. destruct (to_dt alert); [by eexists | done].
  - rewrite Ht. intros [t ->]. by eexists.
Qed.

Lemma alert_events_dispatched_witness :
  async_get_device registry [(DOMAIN, uid boiler)]
  = Some {| id := "0a1b2c";
            identifiers := [("plum_ecomax", "D251PAKR3GCPZ1K8G05G0")] |}
  ∧ ∃ ev1 ev2,
      async_dispatch_alert_events registry boiler [ongoing; concluded] []
      = [ev1; ev2]
      ∧ event_data ev1 !! ATTR_FROM = Some (VStr "2023-09-04 07:05:00")
      ∧ event_data ev1 !! ATTR_TO = None
      ∧ event_data ev2 !! ATTR_FROM = Some (VStr "2023-09-03 22:10:41")
      ∧ event_data ev2 !! ATTR_TO = Some (VStr "2023-09-03 23:00:09").
Proof.
  split; [reflexivity |].
  destruct (alert_events_dispatched registry boiler _ [ongoing; concluded] []
              (eq_refl : async_get_device registry [(DOMAIN, uid boiler)]
                         = Some {| id := "0a1b2c";
                                   identifiers :=
                                     [("plum_ecomax", "D251PAKR3GCPZ1K8G05G0")] |}))
    as (events & Heq & Hlen & Hev).
  destruct events as [|ev1 [|ev2 [|ev3 events]]]; try discriminate Hlen.
  exists ev1, ev2. split; [exact Heq |].
  destruct (Hev 0 ongoing eq_refl) as (e1 & [= <-] & _ & _ & _ & _ & Hf1 & Ht1 & _).
  destruct (Hev 1 concluded eq_refl) as (e2 & [= <-] & _ & _ & _ & _ & Hf2 & Ht2 & _).
  repeat split; assumption.
Defined.
End AlertEvents.

(** ** Capability discovery *)
Section Capabilities.
Import Py Const Connection Sample.

Lemma mixer_tokens_elem (ms : list Mixer) (caps : gset string) t :
  t ∈ foldl (λ caps mixer,
               caps ∪ set_map (mixer_capability (index mixer))
                              (dom (mixer_data mixer)))
            caps ms
  ↔ t ∈ caps
    ∨ ∃ m x, m ∈ ms ∧ x ∈ dom (mixer_data m)
             ∧ t = mixer_capability (index m) x.
Proof.
  revert caps. induction ms as [|m ms IH]; intros caps; simpl.
  - split; [by left |]. intros [? | (m & x & Hm & _)]; [done |].
    by apply elem_of_nil in Hm.
  - rewrite IH, elem_of_union, elem_of_map. split.
    + intros [[? | (x & -> & Hx)] | (m' & x & Hm' & Hx & ->)].
      * by left.
      * right. exists m, x. split; [left | done].
      * right. exists m', x. split; [by right | done].
    + intros [? | (m' & x & Hm' & Hx & ->)]; [by left; left |].
      apply elem_of_cons in Hm' as [-> | Hm'].
      * left; right. by exists x.
      * right. by exists m', x.
Qed.

Lemma mixer_capability_not_temp i x :
  mixer_capability i x ≠ ATTR_WATER_HEATER_TEMP.
Proof. unfold mixer_capability, ATTR_WATER_HEATER_TEMP. simpl. discriminate. Qed.

Lemma capabilities_elem device ms :
  loaded device = true → mixers_of device ms →
  ∃ caps : gset string,
    async_get_device_capabilities device = Ok caps
    ∧ ∀ t, t ∈ caps
           ↔ t ∈ dom (data device)
             ∨ (∃ m x, m ∈ ms ∧ x ∈ dom (mixer_data m)
                       ∧ t = mixer_capability (index m) x)
             ∨ (t = ATTR_WATER_HEATER
                ∧ ATTR_WATER_HEATER_TEMP ∈ dom (data device)).
Proof.
  intros Hl Hms. unfold async_get_device_capabilities. rewrite Hl. simpl.
  set (tokens := foldl (λ caps mixer,
                caps ∪ set_map (mixer_capability (index mixer))
                               (dom (mixer_data mixer)))
             (dom (data device)) ms).
  assert (ATTR_WATER_HEATER_TEMP ∈ tokens
          ↔ ATTR_WATER_HEATER_TEMP ∈ dom (data device)) as Htemp.
  { unfold tokens. rewrite mixer_tokens_elem. split; [|by left].
    intros [? | (m & x & _ & _ & Heq)]; [done |].
    symmetry in Heq. by apply mixer_capability_not_temp in Heq. }
  assert (∀ t, t ∈ (if bool_decide (ATTR_WATER_HEATER_TEMP ∈ tokens)
                    then tokens ∪ {[ATTR_WATER_HEATER]} else tokens)
               ↔ t ∈ dom (data device)
                 ∨ (∃ m x, m ∈ ms ∧ x ∈ dom (mixer_data m)
                           ∧ t = mixer_capability (index m) x)
                 ∨ (t = ATTR_WATER_HEATER
                    ∧ ATTR_WATER_HEATER_TEMP ∈ dom (data device))) as Hall.
  { intros t. case_bool_decide as Hw.
    - rewrite elem_of_union, elem_of_singleton. unfold tokens.
      rewrite mixer_tokens_elem. rewrite Htemp in Hw. tauto.
    - unfold tokens. rewrite mixer_tokens_elem. rewrite Htemp in Hw.
      tauto. }
  destruct Hms as [Hms | [Hms ->]].
  - rewrite bool_decide_true by (apply elem_of_dom; eauto).
    rewrite Hms. simpl. eexists. split; [reflexivity | exact Hall].
  - rewrite bool_decide_false by (by rewrite not_elem_of_dom).
    simpl. eexists. split; [reflexivity | exact Hall].
Qed.

(** C5: for a snapshot whose loaded signal resolves, discovery returns the
    set made of exactly the top-level names, the token
    [mixer_{i}_{attr}] for each mixer [i] of the collection and each
    attribute it exposes, and [water_heater] when [water_heater_temp] is
    a top-level name; iterating the mixers in another order returns the
    same set. *)
Theorem capabilities_exact device ms :
  loaded device = true → mixers_of device ms →
  (∃ caps : gset string,
     async_get_device_capabilities device = Ok caps
     ∧ ∀ t, t ∈ caps
            ↔ t ∈ dom (data device)
              ∨ (∃ m x, m ∈ ms ∧ x ∈ dom (mixer_data m)
                        ∧ t = mixer_capability (index m) x)
              ∨ (t = ATTR_WATER_HEATER
                 ∧ ATTR_WATER_HEATER_TEMP ∈ dom (data device)))
  ∧ ∀ ms1 ms2, ms1 ≡ₚ ms2 →
      async_get_device_capabilities (with_mixers device ms1)
      = async_get_device_capabilities (with_mixers device ms2).
Proof.
  intros Hl Hms. split; [by apply capabilities_elem |].
  intros ms1 ms2 Hperm.
  destruct (capabilities_elem (with_mixers device ms1) ms1 Hl)
    as (c1 & -> & H1); [left; apply lookup_insert_eq |].
  destruct (capabilities_elem (with_mixers device ms2) ms2 Hl)
    as (c2 & -> & H2); [left; apply lookup_insert_eq |].
  f_equal. apply set_eq. intros t. rewrite H1, H2. simpl.
  rewrite !dom_insert_L.
  assert ((∃ m x, m ∈ ms1 ∧ x ∈ dom (mixer_data m)
                  ∧ t = mixer_capability (index m) x)
          ↔ (∃ m x, m ∈ ms2 ∧ x ∈ dom (mixer_data m)
                    ∧ t = mixer_capability (index m) x)) as Hm.
  { split; intros (m & x & Hin & Hx); exists m, x; split; try done.
    - by rewrite <- Hperm.
    - by rewrite Hperm. }
  tauto.
Qed.

Lemma capabilities_exact_witness :
  loaded snapshot = true ∧ mixers_of snapshot two_mixers
  ∧ ∃ caps : gset string,
      async_get_device_capabilities snapshot = Ok caps
      ∧ "mixer_1_current_temp" ∈ caps ∧ "water_heater" ∈ caps
      ∧ "mixer_1_pump" ∉ caps.
Proof.
  assert (mixers_of snapshot two_mixers) as Hms by (left; reflexivity).
  split; [reflexivity |]. split; [exact Hms |].
  destruct (proj1 (capabilities_exact snapshot two_mixers eq_refl Hms))
    as (caps & Heq & Hcaps).
  exists caps. split; [exact Heq |]. rewrite !Hcaps.
  split; [|split].
  - right; left. eexists _, "current_temp".
    split; [apply elem_of_cons; right; apply elem_of_cons; left; reflexivity |].
    split; [|reflexivity]. by apply elem_of_dom.
  - right; right. split; [reflexivity |]. by apply elem_of_dom.
  - intros [H | [(m & x & Hm & Hx & Htok) | [Htok _]]].
    + apply elem_of_dom in H as [v Hv]. vm_compute in Hv. discriminate.
    + unfold two_mixers in Hm.
      apply elem_of_cons in Hm as [-> | Hm]; [vm_compute in Htok; congruence |].
      apply elem_of_cons in Hm as [-> | Hm]; [|by apply elem_of_nil in Hm].
      simpl in Hx, Htok. rewrite dom_singleton_L in Hx.
      apply elem_of_singleton in Hx as ->. vm_compute in Htok. discriminate.
    + discriminate.
Defined.
End Capabilities.

(** ** Target devices *)
Section TargetDevice.
Import Py HA Const Services Sample.

Lemma split_no_sep sep n s : count sep s = 0 → split sep n s = [s].
Proof.
  revert n. induction s as [|a s IH]; intros n Hc; simpl in *; [done |].
  destruct n as [|m]; [done |].
  destruct (Ascii.eqb a sep); [done |]. by rewrite IH.
Qed.

Lemma split_at_sep sep m w t :
  count sep w = 0 → split sep (S m) (w +:+ String sep t) = w :: split sep m t.
Proof.
  induction w as [|a w IH]; intros Hc; simpl in *.
  - by rewrite Ascii.eqb_refl.
  - destruct (Ascii.eqb a sep); [done |]. by rewrite IH.
Qed.

Lemma count_cut sep s k :
  count sep s = S k →
  ∃ s1 s2, s = s1 +:+ String sep s2 ∧ count sep s1 = 0 ∧ count sep s2 = k.
Proof.
  induction s as [|a s IH]; simpl; [done |].
  destruct (Ascii.eqb a sep) eqn:Ha.
  - apply Ascii.eqb_eq in Ha as ->. intros [= Hk]. by exists "", s.
  - intros (s1 & s2 & -> & H1 & H2)%IH. exists (String a s1), s2.
    simpl. by rewrite Ha.
Qed.

Lemma startswith_app sub t : startswith sub (sub +:+ t) = true.
Proof.
  induction sub as [|a sub IH]; simpl; [by destruct t |].
  by rewrite Ascii.eqb_refl.
Qed.

Lemma contains_startswith sub s :
  startswith sub s = true → contains sub s = true.
Proof. destruct s; simpl; by intros ->. Qed.

Lemma contains_app sub u t : contains sub (u +:+ sub +:+ t) = true.
Proof.
  induction u as [|a u IH]; simpl.
  - apply contains_startswith, startswith_app.
  - rewrite IH. apply orb_true_r.
Qed.

(** The last field of [split("-", 3)] is the index as long as the uid has
    at most one hyphen. *)
Lemma split_mixer_identifier u idx :
  count "-" u ≤ 1 → count "-" idx = 0 →
  last (split "-" 3 (u +:+ "-mixer-" +:+ idx)) = Some idx.
Proof.
  intros Hu Hidx.
  change ("-mixer-" +:+ idx) with (String "-" ("mixer" +:+ String "-" idx)).
  destruct (count "-" u) as [|[|k]] eqn:Hc; [| |lia].
  - rewrite split_at_sep by done.
    rewrite (split_at_sep "-" 1 "mixer" idx) by done.
    by rewrite split_no_sep.
  - apply count_cut in Hc as (u1 & u2 & -> & H1 & H2).
    rewrite str_app_assoc.
    change (String "-" u2 +:+ ?x) with (String "-" (u2 +:+ x)).
    rewrite split_at_sep by done.
    rewrite split_at_sep by done.
    rewrite (split_at_sep "-" 0 "mixer" idx) by done.
    by rewrite split_no_sep.
Qed.

(** *** Decimal indices: [int(str(n))] is [n] *)

Lemma pretty_char_digit x :
  (x < 10)%N →
  is_digit (pretty_N_char x) = true
  ∧ (Z.of_N (code (pretty_N_char x)) - 48 = Z.of_N x)%Z.
Proof.
  intros Hx.
  assert (x = 0 ∨ x = 1 ∨ x = 2 ∨ x = 3 ∨ x = 4 ∨ x = 5 ∨ x = 6 ∨ x = 7
          ∨ x = 8 ∨ x = 9)%N as Hcases by lia.
  repeat (destruct Hcases as [-> | Hcases]; [by vm_compute |]).
  subst x. by vm_compute.
Qed.

Lemma pretty_go_digits x s :
  all is_digit s = true → all is_digit (pretty_N_go x s) = true.
Proof.
  revert s. induction (N.lt_wf_0 x) as [x _ IH]; intros s Hs.
  destruct (decide (x = 0)%N) as [-> | Hx]; [by rewrite pretty_N_go_0 |].
  rewrite pretty_N_go_step by lia.
  apply IH; [apply N.div_lt; lia |]. simpl. rewrite Hs, andb_true_r.
  apply pretty_char_digit, N.mod_lt. lia.
Qed.

Lemma int_digits_pretty_go x s :
  (0 < x)%N →
  ∃ k : Z, (0 ≤ k)%Z ∧ ∀ acc ok,
    int_digits acc ok (pretty_N_go x s)
    = int_digits (acc * 10 ^ k + Z.of_N x) true s.
Proof.
  revert s. induction (N.lt_wf_0 x) as [x _ IH]; intros s Hx.
  rewrite pretty_N_go_step by done.
  destruct (pretty_char_digit (x `mod` 10)) as [Hd Hv]; [apply N.mod_lt; lia |].
  pose proof (N.div_mod x 10 ltac:(lia)) as Hdm.
  destruct (decide (x `div` 10 = 0)%N) as [Hq | Hq].
  - rewrite Hq, pretty_N_go_0. exists 1%Z. split; [lia |].
    intros acc ok. simpl. rewrite Hd, Hv. f_equal.
    rewrite Z.pow_1_r. rewrite Hq in Hdm. lia.
  - assert (x `div` 10 < x)%N as Hlt by (apply N.div_lt; lia).
    assert (0 < x `div` 10)%N as Hpos by (by apply N.neq_0_lt_0).
    destruct (IH _ Hlt (String (pretty_N_char (x `mod` 10)) s) Hpos)
      as (k & Hk & Hgo).
    exists (k + 1)%Z. split; [lia |]. intros acc ok.
    rewrite Hgo. simpl. rewrite Hd, Hv. f_equal.
    rewrite Z.pow_add_r, Z.pow_1_r by lia. lia.
Qed.

Lemma digit_not_int_space a : is_digit a = true → is_int_space a = false.
Proof. destruct a as [[] [] [] [] [] [] [] []]; vm_compute; done. Qed.

Lemma digits_rtrim s : all is_digit s = true → rtrim is_int_space s = s.
Proof.
  induction s as [|a s IH]; simpl; [done |].
  intros [Ha Hs]%andb_true_iff. rewrite IH by done.
  destruct s; [by rewrite (digit_not_int_space a) | done].
Qed.

Lemma digits_trim s : all is_digit s = true → trim is_int_space s = s.
Proof.
  intros Hs. unfold trim.
  destruct s as [|a s]; [done |]. simpl in *.
  apply andb_true_iff in Hs as [Ha Hs].
  rewrite (digit_not_int_space a) by done.
  apply (digits_rtrim (String a s)). simpl. by rewrite Ha.
Qed.

Lemma count_if_all p s : all p s = true → count_if p s = String.length s.
Proof.
  induction s as [|a s IH]; simpl; [done |].
  intros [-> Hs]%andb_true_iff. by rewrite IH.
Qed.

Lemma digit_not_sign a :
  is_digit a = true → Ascii.eqb a "-" = false ∧ Ascii.eqb a "+" = false.
Proof. destruct a as [[] [] [] [] [] [] [] []]; vm_compute; done. Qed.

Lemma digits_count_hyphen s : all is_digit s = true → count "-" s = 0.
Proof.
  induction s as [|a s IH]; simpl; [done |].
  intros [Ha Hs]%andb_true_iff.
  destruct (digit_not_sign a Ha) as [-> _]. by rewrite IH.
Qed.

Lemma pretty_digits (n : N) : all is_digit (pretty n) = true.
Proof.
  unfold pretty, pretty_N. case_decide; [done |]. by apply pretty_go_digits.
Qed.

(** A number below [10 ^ k] prints in at most [k] digits. *)
Lemma pretty_go_length (k : nat) : ∀ x s,
  (x < 10 ^ N.of_nat k)%N →
  String.length (pretty_N_go x s) ≤ k + String.length s.
Proof.
  induction k as [|k IH]; intros x s Hx.
  - assert (x = 0%N) as -> by (simpl in Hx; lia). by rewrite pretty_N_go_0.
  - destruct (decide (x = 0)%N) as [-> | Hne]; [rewrite pretty_N_go_0; lia |].
    rewrite pretty_N_go_step by lia.
    assert (x `div` 10 < 10 ^ N.of_nat k)%N as Hq.
    { apply N.Div0.div_lt_upper_bound.
      rewrite Nat2N.inj_succ, N.pow_succ_r' in Hx. exact Hx. }
    specialize (IH _ (String (pretty_N_char (x `mod` 10)) s) Hq).
    simpl in IH. lia.
Qed.

Lemma pretty_length (k : nat) (n : N) :
  0 < k → (n < 10 ^ N.of_nat k)%N → String.length (pretty n) ≤ k.
Proof.
  intros Hk Hn. unfold pretty, pretty_N. case_decide; [simpl; lia |].
  pose proof (pretty_go_length k n "" Hn) as Hlen. simpl in Hlen. lia.
Qed.

Lemma int_max_str_digits_pos : 0 < int_max_str_digits.
Proof. apply Nat.ltb_lt. by vm_compute. Qed.

Lemma py_int_pretty (n : N) :
  (n < 10 ^ 4300)%N → py_int (pretty n) = Ok (Z.of_N n).
Proof.
  intros Hn. pose proof (pretty_digits n) as Hd.
  assert ((int_max_str_digits <? count_if is_digit (pretty n)) = false) as Hfew.
  { apply Nat.ltb_ge. rewrite count_if_all by done.
    apply pretty_length; [apply int_max_str_digits_pos |].
    replace (N.of_nat int_max_str_digits) with 4300%N by (by vm_compute).
    exact Hn. }
  unfold py_int. rewrite digits_trim by done.
  assert (int_digits 0 false (pretty n) = Some (Z.of_N n)) as Hval.
  { unfold pretty, pretty_N. case_decide as Hz; [by subst |].
    destruct (int_digits_pretty_go n "" ltac:(lia)) as (k & _ & ->). done. }
  destruct (pretty n) as [|a t]; [done |].
  simpl in Hd. apply andb_true_iff in Hd as [Ha _].
  destruct (digit_not_sign a Ha) as [-> ->]. rewrite Hval, Hfew.
  f_equal. lia.
Qed.

(** [int] does not read a literal closed by the unit separator, which
    [str.strip] would take off; it reads one between a tab and a
    no-break space. *)
Example py_int_white_space :
  py_int ("1" +:+ String "031"%char "") = Raise ValueError
  ∧ py_int (String "009"%char " 1_0" +:+ String "160"%char "") = Ok 10%Z.
Proof. split; by vm_compute. Qed.

(** [int] refuses a literal of more than 4300 digits. *)
Lemma py_int_long_literal s :
  all is_digit s = true → int_max_str_digits < String.length s →
  py_int s = Raise ValueError.
Proof.
  intros Hd Hlen. unfold py_int. rewrite digits_trim by done.
  destruct s as [|a t] eqn:Hs; [done |]. rewrite <- Hs in *.
  assert (Ascii.eqb a "-" = false ∧ Ascii.eqb a "+" = false) as [-> ->].
  { apply digit_not_sign. subst s. simpl in Hd.
    by apply andb_true_iff in Hd as [? _]. }
  destruct (int_digits 0 false s); [|done].
  rewrite count_if_all by done.
  by apply Nat.ltb_lt in Hlen as ->.
Qed.

(** C6, as stated, fails: with a uid that holds two hyphens the last of
    the four fields is [mixer-2], [int] raises [ValueError], and nothing
    catches it; the main device is not returned. *)
Lemma target_device_dashed_uid_raises :
  async_get devices_registry "dashed"
  = Some {| id := "dashed"; identifiers := [("plum_ecomax", "a-b-c-mixer-2")] |}
  ∧ device plum = Ok controller
  ∧ default ∅ (mixers controller) !! 2%Z = None
  ∧ async_extract_target_device "dashed" devices_registry plum = Raise ValueError.
Proof. repeat split; vm_compute; reflexivity. Qed.

(** C6, amended: on a connection that holds its device, for a registered
    device whose identifier is a uid with at most one hyphen, the marker
    [-mixer-] and a hyphen-free literal that [int] reads (the decimal form
    of an index below [10 ^ 4300] in particular), resolution returns the
    mixer of that index when the collection holds it and the main device
    otherwise; for an identifier without the marker it returns the main
    device. *)
Theorem target_device_resolved device_id dr connection ecomax entry domain
    identifier others :
  async_get dr device_id = Some entry →
  identifiers entry = (domain, identifier) :: others →
  _device connection = Some ecomax →
  (∀ u idx i,
     identifier = u +:+ "-mixer-" +:+ idx →
     count "-" u ≤ 1 → count "-" idx = 0 → py_int idx = Ok i →
     async_extract_target_device device_id dr connection
     = Ok (match default ∅ (mixers ecomax) !! i with
           | Some mixer => Sub mixer
           | None => Main ecomax
           end))
  ∧ (∀ u (n : N),
       identifier = u +:+ "-mixer-" +:+ pretty n →
       count "-" u ≤ 1 → (n < 10 ^ 4300)%N →
       async_extract_target_device device_id dr connection
       = Ok (match default ∅ (mixers ecomax) !! Z.of_N n with
             | Some mixer => Sub mixer
             | None => Main ecomax
             end))
  ∧ (contains "-mixer-" identifier = false →
     async_extract_target_device device_id dr connection = Ok (Main ecomax)).
Proof.
  intros Hentry Hids Hdev.
  assert (∀ u idx i,
            identifier = u +:+ "-mixer-" +:+ idx →
            count "-" u ≤ 1 → count "-" idx = 0 → py_int idx = Ok i →
            async_extract_target_device device_id dr connection
            = Ok (match default ∅ (mixers ecomax) !! i with
                  | Some mixer => Sub mixer
                  | None => Main ecomax
                  end)) as Hliteral.
  { intros u idx i -> Hu Hidx Hint. unfold async_extract_target_device, device.
    rewrite Hentry, Hids, Hdev.
    rewrite contains_app, split_mixer_identifier by done.
    rewrite Hint. simpl. by destruct (_ !! i). }
  split; [exact Hliteral |]. split.
  - intros u n Hid Hu Hn. apply (Hliteral u (pretty n)); [done | done | |].
    + apply digits_count_hyphen, pretty_digits.
    + by apply py_int_pretty.
  - unfold async_extract_target_device, device.
    rewrite Hentry, Hids, Hdev. by intros ->.
Qed.

Lemma target_device_resolved_witness :
  async_extract_target_device "mixer1" devices_registry plum
  = Ok (Sub (mixer_n 1 40))
  ∧ async_extract_target_device "mixer2" devices_registry plum
    = Ok (Main controller)
  ∧ async_extract_target_device "main" devices_registry plum
    = Ok (Main controller).
Proof.
  split; [|split].
  - exact (proj1 (target_device_resolved "mixer1" devices_registry plum
                    controller _ _ _ _ eq_refl eq_refl eq_refl)
             "D251PAKR3GCPZ1K8G05G0" "1" 1%Z eq_refl
             ltac:(simpl; lia) eq_refl eq_refl).
  - exact (proj1 (proj2 (target_device_resolved "mixer2" devices_registry plum
                           controller _ _ _ _ eq_refl eq_refl eq_refl))
             "D251PAKR3GCPZ1K8G05G0" 2%N eq_refl ltac:(simpl; lia)
             ltac:(by vm_compute)).
  - exact (proj2 (proj2 (target_device_resolved "main" devices_registry plum
                           controller _ _ _ _ eq_refl eq_refl eq_refl)) eq_refl).
Defined.
End TargetDevice.

(** ** The get-parameter service *)
Section GetParameter.
Import Py HA Const Services Sample.



Lemma await_each_ok {A B} (f : A → result B) (xs : list A) (ys : list B) :
  await_each f xs = Ok ys → Forall2 (λ x y, f x = Ok y) xs ys.
Proof.
  revert ys. induction xs as [|x xs IH]; intros ys; simpl.
  - intros [= <-]. constructor.
  - destruct (f x) as [y|e] eqn:Hx; simpl; [|done].
    destruct (await_each f xs) as [ys'|e] eqn:Hxs; simpl; [|done].
    intros [= <-]. constructor; [done | by apply IH].
Qed.







(** C10: every record the get-parameter service returns comes from one
    device of the fan-out, and its [device_index] is the index of that
    device plus one when the device is a mixer, and 0 when it is the
    controller. *)
Theorem device_index_one_based devices name records :
  async_get_parameter_service devices name = Ok records →
  ∀ r, r ∈ records →
    ∃ d, d ∈ devices
         ∧ async_get_device_parameter d name = Ok (Some r)
         ∧ device_index r = match d with
                            | Sub m => (index m + 1)%Z
                            | Main _ => 0%Z
                            end.
Proof.
  unfold async_get_parameter_service. intros Hs r Hr.
  destruct (await_each _ devices) as [found|e] eqn:Hfound; simpl in Hs; [|done].
  destruct (negb _); [done |]. injection Hs as <-.
  apply list_elem_of_omap in Hr as (y & Hy & ->).
  apply await_each_ok in Hfound.
  apply list_elem_of_lookup in Hy as [i Hi].
  destruct (Forall2_lookup_r _ _ _ _ _ Hfound Hi) as (d & Hd & Hf).
  exists d. split; [by eapply list_elem_of_lookup_2 |]. split; [done |].
  unfold async_get_device_parameter in Hf.
  destruct (device_get d name) as [p|e]; [by injection Hf as <- |].
  destruct e; discriminate.
Qed.

Lemma device_index_one_based_witness :
  ∃ records,
    async_get_parameter_service
      [Sub (mixer_n 0 35); Main controller; Sub (mixer_n 1 40)] "mix_set_temp"
    = Ok records
    ∧ (device_index <$> records) = [1%Z; 2%Z]
    ∧ ∀ r, r ∈ records →
        ∃ d, d ∈ [Sub (mixer_n 0 35); Main controller; Sub (mixer_n 1 40)]
             ∧ async_get_device_parameter d "mix_set_temp" = Ok (Some r)
             ∧ device_index r = match d with
                                | Sub m => (index m + 1)%Z
                                | Main _ => 0%Z
                                end.
Proof.
  eexists. split; [vm_compute; reflexivity |]. split; [reflexivity |].
  apply (device_index_one_based
           [Sub (mixer_n 0 35); Main controller; Sub (mixer_n 1 40)]
           "mix_set_temp").
  vm_compute. reflexivity.
Defined.
End GetParameter.

(** ** Schedules *)
Section Schedules.
Import Py Datetime Const Services Sample.

(** *** Dictionaries built by a comprehension *)

Lemma dict_fold_dom {A V} (key : A → string) (val : A → V) (xs : list A)
    (d0 : gmap string V) :
  dom (foldl (λ d x, <[key x := val x]> d) d0 xs)
  = dom d0 ∪ list_to_set (key <$> xs).
Proof.
  revert d0. induction xs as [|x xs IH]; intros d0; simpl.
  - by rewrite union_empty_r_L.
  - rewrite IH, dom_insert_L.
    rewrite (union_comm_L {[key x]} (dom d0)). by rewrite union_assoc_L.
Qed.

Lemma dict_fold_lookup_other {A V} (key : A → string) (val : A → V)
    (xs : list A) (d0 : gmap string V) k :
  k ∉ key <$> xs →
  foldl (λ d x, <[key x := val x]> d) d0 xs !! k = d0 !! k.
Proof.
  revert d0. induction xs as [|x xs IH]; intros d0 Hk; simpl; [done |].
  rewrite fmap_cons, not_elem_of_cons in Hk. destruct Hk as [Hne Hk].
  rewrite IH by done. by rewrite lookup_insert_ne.
Qed.

Lemma dict_fold_lookup {A V} (key : A → string) (val : A → V)
    (xs : list A) (d0 : gmap string V) x :
  NoDup (key <$> xs) → x ∈ xs →
  foldl (λ d x, <[key x := val x]> d) d0 xs !! key x = Some (val x).
Proof.
  revert d0. induction xs as [|y xs IH]; intros d0 Hnd Hx; simpl.
  - by apply elem_of_nil in Hx.
  - rewrite fmap_cons in Hnd. apply NoDup_cons in Hnd as [Hy Hnd].
    apply elem_of_cons in Hx as [-> | Hx]; [|by apply IH].
    rewrite dict_fold_lookup_other by done. apply lookup_insert_eq.
Qed.

Lemma enumerate_from_fst {A} (xs : list A) n :
  (enumerate_from n xs).*1 = seq n (length xs).
Proof.
  revert n. induction xs as [|x xs IH]; intros n; simpl; [done |].
  by rewrite IH.
Qed.

Lemma enumerate_from_elem {A} (xs : list A) n i x :
  xs !! i = Some x → (n + i, x) ∈ enumerate_from n xs.
Proof.
  revert n i. induction xs as [|y xs IH]; intros n [|i] Hi; simpl in *;
    try done.
  - injection Hi as ->. rewrite Nat.add_0_r. left.
  - right. replace (n + S i) with (S n + i) by lia. by apply IH.
Qed.

(** *** The keys of a decoded day *)

Example start_of_day_parsed :
  strptime START_OF_DAY TIME_FORMAT = Some epoch_1900
  ∧ START_OF_DAY_DT = epoch_1900.
Proof. split; reflexivity. Qed.

Lemma slot_key_strftime i :
  i < 48 →
  strftime (add_minutes START_OF_DAY_DT (30 * Z.of_nat i)) TIME_FORMAT
  = slot_key i.
Proof.
  intros Hi.
  assert (forallb (λ i, String.eqb
                    (strftime (add_minutes START_OF_DAY_DT (30 * Z.of_nat i))
                              TIME_FORMAT)
                    (slot_key i)) (seq 0 48) = true) as Hall
    by (vm_compute; reflexivity).
  rewrite forallb_forall in Hall.
  apply String.eqb_eq, Hall, in_seq. lia.
Qed.

Lemma slot_keys_distinct : NoDup (slot_key <$> seq 0 48).
Proof. refine (bool_decide_unpack _ _). vm_compute. exact I. Qed.

Lemma day_keys (bs : list bool) :
  length bs = 48 →
  (λ '(index, _),
     strftime (add_minutes START_OF_DAY_DT (30 * Z.of_nat index)) TIME_FORMAT)
    <$> enumerate bs
  = slot_key <$> seq 0 48.
Proof.
  intros Hlen. unfold enumerate. rewrite <- Hlen, <- (enumerate_from_fst bs 0).
  rewrite <- list_fmap_compose. apply list_fmap_ext.
  intros i [j b] Hib. simpl. apply slot_key_strftime.
  assert (j ∈ (enumerate_from 0 bs).*1) as Hj.
  { apply list_elem_of_fmap. exists (j, b). split; [done |].
    by eapply list_elem_of_lookup_2. }
  rewrite enumerate_from_fst, Hlen in Hj. apply elem_of_seq in Hj. lia.
Qed.

(** C8, as stated, fails: the keys of a decoded day are written by the
    library's [TIME_FORMAT], which has no seconds.  For the day that is
    set from 06:00 to 22:00 none of the 48 keys [HH:MM:SS] of the claim is
    in the dictionary; [06:00:00], the claimed key of slot 12, is not, and
    the slot is found under [06:00]. *)
Lemma schedule_day_keys_lack_seconds :
  length (intervals working_day) = 48
  ∧ intervals working_day !! 12 = Some true
  ∧ slot_key_seconds 12 = "06:00:00"
  ∧ async_schedule_day_to_dict working_day !! "06:00:00" = None
  ∧ async_schedule_day_to_dict working_day !! "06:00" = Some "day"
  ∧ Forall (λ i, async_schedule_day_to_dict working_day !! slot_key_seconds i
                 = None) (seq 0 48).
Proof.
  split; [vm_compute; reflexivity |]. split; [vm_compute; reflexivity |].
  split; [vm_compute; reflexivity |]. split; [vm_compute; reflexivity |].
  split; [vm_compute; reflexivity |].
  apply Forall_forall. intros i Hi.
  assert (forallb (λ i, bool_decide
                    (async_schedule_day_to_dict working_day
                       !! slot_key_seconds i = None)) (seq 0 48) = true) as Hall
    by (vm_compute; reflexivity).
  rewrite forallb_forall in Hall.
  apply list_elem_of_In, Hall in Hi. by apply bool_decide_eq_true in Hi.
Qed.

(** C8, amended: a day of 48 slots decodes to a dictionary of exactly 48
    keys, the times [HH:MM] every thirty minutes from [00:00]; the key of
    slot [i] holds [day] when the slot is set and [night] when it is
    not.  The function is total: it is defined on every day and raises
    nothing. *)
Theorem schedule_day_decoded (schedule_day : ScheduleDay) :
  length (intervals schedule_day) = 48 →
  let d := async_schedule_day_to_dict schedule_day in
  size d = 48
  ∧ dom d = list_to_set (slot_key <$> seq 0 48)
  ∧ (∀ i (b : bool), intervals schedule_day !! i = Some b →
       d !! slot_key i = Some (if b then "day" else "night"))
  ∧ slot_key 0 = "00:00" ∧ slot_key 1 = "00:30" ∧ slot_key 47 = "23:30".
Proof.
  intros Hlen d.
  assert (dom d = list_to_set (slot_key <$> seq 0 48)) as Hdom.
  { unfold d, async_schedule_day_to_dict, dict_of.
    rewrite dict_fold_dom, dom_empty_L, day_keys by done.
    by rewrite union_empty_l_L. }
  split; [|split; [done |split; [|done]]].
  - rewrite <- size_dom, Hdom, size_list_to_set by apply slot_keys_distinct.
    by rewrite length_fmap, length_seq.
  - intros i b Hi.
    assert (i < 48) as Hlt by (rewrite <- Hlen; by eapply lookup_lt_Some).
    rewrite <- (slot_key_strftime i Hlt).
    unfold d, async_schedule_day_to_dict, dict_of.
    apply (dict_fold_lookup
             (λ '(index, _),
                strftime (add_minutes START_OF_DAY_DT (30 * Z.of_nat index))
                         TIME_FORMAT)
             (λ '(_, value), if value : bool then STATE_DAY else STATE_NIGHT)
             (enumerate (intervals schedule_day)) ∅ (i, b)).
    + rewrite day_keys by done. apply slot_keys_distinct.
    + by apply (enumerate_from_elem _ 0).
Qed.

Lemma schedule_day_decoded_witness :
  length (intervals working_day) = 48
  ∧ size (async_schedule_day_to_dict working_day) = 48
  ∧ async_schedule_day_to_dict working_day !! "05:30" = Some "night"
  ∧ async_schedule_day_to_dict working_day !! "06:00" = Some "day".
Proof.
  destruct (schedule_day_decoded working_day eq_refl) as (Hsize & _ & Hslot & _).
  split; [reflexivity |]. split; [exact Hsize |]. split.
  - exact (Hslot 11 false eq_refl).
  - exact (Hslot 12 true eq_refl).
Defined.
End Schedules.

(** ** More on the migration: every run, every outcome *)
Section MigrationRuns.
Import Py HA Const Init Sample.

Ltac unfold_migration :=
  unfold async_migrate_entry, try_except, mbind, M_bind, mret, M_ret, lift,
    gets, modify, get_version, set_version, set_connected,
    async_update_entry, raise, getitem;
  simpl.

(** The version is one of the six handled ones, or none of the tests on
    it succeeds. *)
Ltac version_cases v :=
  let H := fresh "Hcase" in
  assert (v = 1 ∨ v = 2 ∨ v = 3 ∨ v = 4 ∨ v = 5 ∨ v = 6 ∨ ¬ (1 ≤ v ≤ 6))%Z
    as H by lia;
  repeat (destruct H as [-> | H]);
  [ .. |
    assert (((v =? 1) || (v =? 2) = false)%Z) by lia;
    assert ((v =? 3) = false)%Z by lia;
    assert (((v =? 4) || (v =? 5) = false)%Z) by lia;
    assert ((v =? 6) = false)%Z by lia ].

Ltac migration_cases :=
  repeat (first [ match goal with H : _ = false |- _ => rewrite H end
                | case_match ];
          simplify_eq/=).

(** X1: whatever the controller answers and however the run ends, the
    version of the entry is never lowered: it stays, or it becomes one of
    3, 4, 6 and 7 above it; and a run that reports success on a version
    from 1 to 6 ends at 7. *)
Theorem migrate_version_monotone ctl h :
  let v := version (config_entry h) in
  let v' := version (config_entry (async_migrate_entry ctl h).1) in
  (v ≤ v')%Z
  ∧ (v' = v ∨ v' = 3 ∨ v' = 4 ∨ v' = 6 ∨ v' = 7)%Z
  ∧ ((async_migrate_entry ctl h).2 = Ok true → (1 ≤ v ≤ 6)%Z → v' = 7%Z).
Proof.
  destruct h as [[v d] ps c]. unfold_migration.
  version_cases v; simpl; migration_cases; repeat split; (lia || done).
Qed.

Lemma migrate_version_monotone_witness :
  (async_migrate_entry responsive entry_v4).2 = Ok true
  ∧ (1 ≤ version (config_entry entry_v4) ≤ 6)%Z
  ∧ version (config_entry (async_migrate_entry responsive entry_v4).1) = 7%Z.
Proof.
  assert ((async_migrate_entry responsive entry_v4).2 = Ok true) as Hr
    by reflexivity.
  assert (1 ≤ version (config_entry entry_v4) ≤ 6)%Z as Hv by (simpl; lia).
  split; [exact Hr |]. split; [exact Hv |].
  exact (proj2 (proj2 (migrate_version_monotone responsive entry_v4)) Hr Hv).
Defined.

(** X2: [async_update_entry] is called once, and the connection closed,
    exactly when the run reports success; a run that returns [False] or
    lets an exception escape stores nothing, leaves the data of the entry
    as it was and leaves the connection open. *)
Theorem migrate_persists_on_success_only ctl h :
  let h' := (async_migrate_entry ctl h).1 in
  ((async_migrate_entry ctl h).2 = Ok true →
   persisted h' = persisted h ++ [config_entry h'] ∧ connected h' = false)
  ∧ ((async_migrate_entry ctl h).2 ≠ Ok true →
     data (config_entry h') = data (config_entry h)
     ∧ persisted h' = persisted h ∧ connected h' = true).
Proof.
  destruct h as [[v d] ps c]. unfold_migration.
  version_cases v; simpl; migration_cases; split; intros Hr; try done.
Qed.

Lemma migrate_persists_on_success_only_witness :
  (async_migrate_entry sub_devices_time_out entry_v1).2 ≠ Ok true
  ∧ data (config_entry (async_migrate_entry sub_devices_time_out entry_v1).1)
    = data (config_entry entry_v1)
  ∧ persisted (async_migrate_entry sub_devices_time_out entry_v1).1 = []
  ∧ connected (async_migrate_entry sub_devices_time_out entry_v1).1 = true.
Proof.
  assert ((async_migrate_entry sub_devices_time_out entry_v1).2 ≠ Ok true)
    as Hr by (vm_compute; discriminate).
  split; [exact Hr |].
  exact (proj2 (migrate_persists_on_success_only sub_devices_time_out entry_v1) Hr).
Defined.

(** X3: from every handled version, 1 to 6, one run with its queries
    answered (and, up to version 3, a model string in the data) reports
    success, ends at version 7, stores the entry once with the product id
    in it and closes the connection; the steps below the entry version are
    not run, so from version 4 on the model is left as it is. *)
Theorem migrate_reaches_current ctl h model p1 sd p2 :
  let v := version (config_entry h) in
  (1 ≤ v ≤ 6)%Z →
  get_ecomax ctl = Ok () →
  ((v ≤ 2)%Z → get_product_first ctl = Ok p1) →
  ((v ≤ 3)%Z → data (config_entry h) !! CONF_MODEL = Some (VStr model)) →
  ((v ≤ 5)%Z → get_sub_devices ctl = Ok sd) →
  get_product_second ctl = Ok p2 →
  ∃ d',
    async_migrate_entry ctl h
    = ({| config_entry := {| version := 7; data := d' |};
          persisted := persisted h ++ [{| version := 7; data := d' |}];
          connected := false |}, Ok true)
    ∧ d' !! CONF_PRODUCT_ID = Some (VInt (product_id p2))
    ∧ ((v ≤ 2)%Z → d' !! CONF_PRODUCT_TYPE = Some (VInt (product_type p1)))
    ∧ ((v ≤ 3)%Z → d' !! CONF_MODEL = Some (VStr (format_model_name model)))
    ∧ ((4 ≤ v)%Z → d' !! CONF_MODEL = data (config_entry h) !! CONF_MODEL)
    ∧ ((v ≤ 5)%Z → d' !! CONF_CAPABILITIES = None
                    ∧ d' !! CONF_SUB_DEVICES = Some sd).
Proof.
  destruct h as [[v d] ps c]. simpl. intros Hv He H1 Hm Hs H2.
  assert (v = 1 ∨ v = 2 ∨ v = 3 ∨ v = 4 ∨ v = 5 ∨ v = 6)%Z as Hcase by lia.
  unfold_migration. rewrite He.
  repeat (destruct Hcase as [-> | Hcase]); try subst v; simpl;
    rewrite ?H1, ?Hs by lia; simpl;
    rewrite ?lookup_insert_ne, ?Hm by (done || lia); simpl;
    rewrite ?H1, ?Hs by lia; simpl; rewrite ?H2;
    (eexists; split; [reflexivity |]);
    repeat split; intros; try lia; by simplify_map_eq.
Qed.

Lemma migrate_reaches_current_witness :
  (1 ≤ version (config_entry entry_v4) ≤ 6)%Z
  ∧ version (config_entry (async_migrate_entry responsive entry_v4).1) = 7%Z
  ∧ (async_migrate_entry responsive entry_v4).2 = Ok true.
Proof.
  split; [simpl; lia |].
  destruct (migrate_reaches_current responsive entry_v4 "" product_350
              (VList ["mixers"]) product_350)
    as (d' & -> & _); simpl; try (intros; lia); try reflexivity.
  split; reflexivity.
Defined.

(** X4: the model is read unguarded.  On a version from 1 to 3, with the
    queries before it answered, an entry without a model lets [KeyError]
    escape and one whose model is not a string lets [TypeError] escape;
    nothing is stored, the connection stays open, and the version stays
    at 3. *)
Theorem migrate_model_unreadable ctl h p1 :
  let v := version (config_entry h) in
  (1 ≤ v ≤ 3)%Z →
  get_ecomax ctl = Ok () →
  ((v ≤ 2)%Z → get_product_first ctl = Ok p1) →
  (∀ m, data (config_entry h) !! CONF_MODEL ≠ Some (VStr m)) →
  async_migrate_entry ctl h
  = ({| config_entry := {| version := 3; data := data (config_entry h) |};
        persisted := persisted h; connected := true |},
     Raise (match data (config_entry h) !! CONF_MODEL with
            | None => KeyError
            | Some _ => TypeError
            end)).
Proof.
  destruct h as [[v d] ps c]. simpl. intros Hv He H1 Hm.
  assert (v = 1 ∨ v = 2 ∨ v = 3)%Z as Hcase by lia.
  unfold_migration. rewrite He.
  repeat (destruct Hcase as [-> | Hcase]); try subst v; simpl;
    rewrite ?H1 by lia; simpl; rewrite ?lookup_insert_ne by done;
    (destruct (d !! CONF_MODEL) as [[]|] eqn:Hd; simpl; try done;
     by destruct (Hm s)).
Qed.

Lemma migrate_model_unreadable_witness :
  (async_migrate_entry responsive entry_no_model).2 = Raise KeyError
  ∧ version (config_entry (async_migrate_entry responsive entry_no_model).1) = 3%Z.
Proof.
  assert (∀ m, data (config_entry entry_no_model) !! CONF_MODEL ≠ Some (VStr m))
    as Hm by (intros m; vm_compute; discriminate).
  rewrite (migrate_model_unreadable responsive entry_no_model product_350
             ltac:(simpl; lia) eq_refl (λ _, eq_refl) Hm).
  split; reflexivity.
Defined.

(** X5: a failed run is not resumed where it stopped.  An entry at
    version 1 whose first run times out in the sub-device query is left at
    version 4; the next run, fully answered, reports success and ends at
    version 7, but the two steps the first run had taken are not taken
    again and their results were never stored: the product type is still
    missing and the model is still unformatted. *)
Theorem migrate_retry_skips_taken_steps ctl1 ctl2 h model p1 sd p2 :
  version (config_entry h) = 1%Z →
  data (config_entry h) !! CONF_MODEL = Some (VStr model) →
  data (config_entry h) !! CONF_PRODUCT_TYPE = None →
  get_ecomax ctl1 = Ok () → get_product_first ctl1 = Ok p1 →
  get_sub_devices ctl1 = Raise TimeoutError →
  get_ecomax ctl2 = Ok () → get_sub_devices ctl2 = Ok sd →
  get_product_second ctl2 = Ok p2 →
  let h1 := (async_migrate_entry ctl1 h).1 in
  let h2 := (async_migrate_entry ctl2 h1).1 in
  (async_migrate_entry ctl1 h).2 = Ok false
  ∧ version (config_entry h1) = 4%Z
  ∧ (async_migrate_entry ctl2 h1).2 = Ok true
  ∧ version (config_entry h2) = 7%Z
  ∧ data (config_entry h2) !! CONF_PRODUCT_TYPE = None
  ∧ data (config_entry h2) !! CONF_MODEL = Some (VStr model).
Proof.
  destruct h as [[v d] ps c]. simpl.
  intros -> Hm Hpt He1 H1 Hs1 He2 Hs2 H2.
  unfold_migration. rewrite He1, H1. simpl.
  rewrite lookup_insert_ne by done. rewrite Hm. simpl. rewrite Hs1. simpl.
  rewrite He2. simpl. rewrite Hs2. simpl. rewrite H2. simpl.
  repeat split; by simplify_map_eq.
Qed.

Lemma migrate_retry_skips_taken_steps_witness :
  let h1 := (async_migrate_entry sub_devices_time_out entry_v1).1 in
  let h2 := (async_migrate_entry responsive h1).1 in
  version (config_entry h2) = 7%Z
  ∧ data (config_entry h2) !! CONF_PRODUCT_TYPE = None
  ∧ data (config_entry h2) !! CONF_MODEL = Some (VStr "EM350P2-ZF").
Proof.
  destruct (migrate_retry_skips_taken_steps sub_devices_time_out responsive
              entry_v1 "EM350P2-ZF" product_350 (VList ["mixers"]) product_350
              eq_refl eq_refl eq_refl eq_refl eq_refl eq_refl eq_refl eq_refl
              eq_refl) as (_ & _ & _ & H7 & Hpt & Hm).
  repeat split; assumption.
Defined.
End MigrationRuns.

(** ** [format_model_name] applied twice *)
Section FormatTwice.
Import Init.

Lemma format_model_name_shape L W D R nl s :
  model_shape L W D R nl s →
  format_model_name s
  = (if String.eqb L "EM" then "ecoMAX" else L) +:+ " " +:+ D +:+ R.
Proof.
  intros Hs. destruct (model_match_complete _ _ _ _ _ _ Hs) as [m Hm].
  unfold format_model_name. rewrite Hm.
  apply model_match_sound in Hm as (L' & W' & D' & R' & nl' & Hs' & -> & -> & ->).
  destruct (model_shape_unique _ _ _ _ _ _ _ _ _ _ _ Hs Hs') as [-> Heq].
  by rewrite Heq.
Qed.

(** X6: formatting a formatted model name changes nothing, for every
    string: running the 3 -> 4 step on a model that was already formatted
    is harmless. *)
Theorem format_model_name_idempotent (s : string) :
  format_model_name (format_model_name s) = format_model_name s.
Proof.
  unfold format_model_name at 2 3.
  destruct (re_match model_pattern s IGNORECASE) as [m|] eqn:Hm.
  - apply model_match_sound in Hm
      as (L & W & D & R & nl & (-> & HL & HlenL & HW & HD & HlenD & HR & HlenR & Hnl)
          & -> & -> & ->).
    set (L' := if String.eqb L "EM" then "ecoMAX" else L).
    assert (all is_letter L' = true ∧ 1 ≤ String.length L'
            ∧ String.eqb L' "EM" = false) as (HL' & HlenL' & Hne).
    { unfold L'. destruct (String.eqb L "EM") eqn:HEM;
        repeat split; try done; simpl; lia. }
    rewrite (format_model_name_shape L' " " D R "").
    + by rewrite Hne.
    + unfold model_shape. rewrite str_app_nil_r.
      repeat split; try done. by left.
  - unfold format_model_name. by rewrite Hm.
Qed.
End FormatTwice.

(** ** Alert batches and their logbook entries *)
Section AlertLog.
Import Py Datetime HA Const Init Logbook Sample.

(** X7: when the registry does not know the device of the connection the
    whole batch is dropped, no event is fired; when it does, the events
    already on the bus stay in place and two batches handled one after the
    other fire the events of the two batches put together. *)
Theorem alert_batches_compose dr connection alerts1 alerts2 bus :
  (async_get_device dr [(DOMAIN, uid connection)] = None →
   async_dispatch_alert_events dr connection alerts1 bus = bus)
  ∧ async_dispatch_alert_events dr connection (alerts1 ++ alerts2) bus
    = async_dispatch_alert_events dr connection alerts2
        (async_dispatch_alert_events dr connection alerts1 bus)
  ∧ bus `prefix_of` async_dispatch_alert_events dr connection alerts1 bus
  ∧ length (async_dispatch_alert_events dr connection alerts1 bus)
    = length bus
      + match async_get_device dr [(DOMAIN, uid connection)] with
        | Some _ => length alerts1
        | None => 0
        end.
Proof.
  unfold async_dispatch_alert_events.
  destruct (async_get_device dr _) as [device|].
  - split; [done |]. split; [by rewrite foldl_app |].
    rewrite dispatch_fold. split; [by apply prefix_app_r |].
    by rewrite length_app, length_map.
  - repeat split; done.
Qed.

Lemma alert_batches_compose_witness :
  async_get_device [] [(DOMAIN, uid boiler)] = None
  ∧ async_dispatch_alert_events [] boiler [ongoing; concluded] [] = [].
Proof.
  split; [reflexivity |].
  exact (proj1 (alert_batches_compose [] boiler [ongoing; concluded] [] [])
           eq_refl).
Defined.

(** X8: the logbook entry of an event fired for an alert.  It is found
    without raising, is named [ecoMAX], and its message is the text of
    the alert code (the generic text with the code when the code is not in
    the table), then [from] and the start, then [to] and the end exactly
    when the alert has an end. *)
Theorem dispatched_alert_described (repr : value → string) (t : AlertType)
    connection device alert :
  async_describe_alert_event repr t
    {| event_type := EVENT_PLUM_ECOMAX_ALERT;
       event_data := alert_event_data connection device alert |}
  = Ok (<[LOGBOOK_ENTRY_MESSAGE :=
            default ("Encountered alert with code " +:+ dquote
                     +:+ pretty (code alert) +:+ dquote)
                    (ALERT_TYPES t !! code alert)
            +:+ " "
            +:+ match to_dt alert with
                | Some e => ("from " +:+ timestamp (from_dt alert))
                            +:+ " to " +:+ timestamp e
                | None => "from " +:+ timestamp (from_dt alert)
                end]>
          (<[LOGBOOK_ENTRY_NAME := "ecoMAX"]> ∅)).
Proof.
  destruct (alert_event_data_fields connection device alert)
    as (_ & _ & Hc & Hf & Ht).
  unfold async_describe_alert_event, getitem. simpl.
  rewrite Hc. simpl. rewrite Hf. simpl. rewrite Ht.
  by destruct (to_dt alert).
Qed.
End AlertLog.


(** ** Capability tokens and their refresh *)
Section CapabilityRefresh.
Import Py HA Const Connection Coordinator Sample.

Lemma digit_not_underscore a : is_digit a = true → not_underscore a = true.
Proof. destruct a as [[] [] [] [] [] [] [] []]; vm_compute; done. Qed.

Lemma pretty_N_no_underscore (n : N) : all not_underscore (pretty n) = true.
Proof.
  eapply all_impl; [apply digit_not_underscore | apply pretty_digits].
Qed.

Lemma pretty_Z_no_underscore (z : Z) : all not_underscore (pretty z) = true.
Proof.
  destruct z as [|p|p]; [done | apply (pretty_N_no_underscore (Npos p)) |].
  change (pretty (Z.neg p)) with ("-" +:+ pretty (Npos p)).
  simpl. apply (pretty_N_no_underscore (Npos p)).
Qed.

(** X9: a mixer token names one mixer index and one attribute only: two
    tokens are equal only when they come from the same index and the same
    attribute name, whatever characters the attribute name holds. *)
Theorem mixer_capability_inj i j x y :
  mixer_capability i x = mixer_capability j y → i = j ∧ x = y.
Proof.
  unfold mixer_capability. intros Heq.
  apply (inj (String.append "mixer_")) in Heq.
  apply (span_unique not_underscore) in Heq as [Hi Hx];
    try apply pretty_Z_no_underscore; try done.
  split; [by apply (inj pretty) | by injection Hx].
Qed.

Lemma mixer_capability_inj_witness :
  mixer_capability 1 "2_temp" = mixer_capability 1 "2_temp"
  ∧ (1%Z = 1%Z ∧ "2_temp" = "2_temp").
Proof.
  split; [reflexivity |].
  exact (mixer_capability_inj 1 1 "2_temp" "2_temp" eq_refl).
Defined.

(** X10: refreshing the capabilities.  With a device set up and discovery
    answering, the call hands the entry to [async_update_entry] once,
    after which the [capabilities] property reads back the discovered set
    and every other field and the version are as before; when no device is
    set up, or discovery raises, the exception escapes and nothing at all
    is changed. *)
Theorem capabilities_refreshed (self : EcomaxConnection) :
  (∀ d found,
     _device self = Some d → async_get_device_capabilities d = Ok found →
     ∃ self',
       async_update_device_capabilities self = (self', Ok ())
       ∧ capabilities self' = Ok (VSet found)
       ∧ (∀ k, k ≠ CONF_CAPABILITIES →
               HA.data (entry self') !! k = HA.data (entry self) !! k)
       ∧ version (entry self') = version (entry self)
       ∧ _device self' = Some d
       ∧ updated self' = updated self ++ [entry self'])
  ∧ (_device self = None →
     async_update_device_capabilities self
     = (self, Raise (HomeAssistantError "Device not found")))
  ∧ (∀ d e,
       _device self = Some d → async_get_device_capabilities d = Raise e →
       async_update_device_capabilities self = (self, Raise e)).
Proof.
  unfold async_update_device_capabilities, capabilities, device, mbind, M_bind,
    gets, lift, modify, getitem.
  split; [|split].
  - intros d found Hd Hfound. simpl. rewrite Hd, Hfound. simpl.
    eexists. split; [reflexivity |]. simpl.
    rewrite lookup_insert_eq. repeat split; try done.
    intros k Hk. by rewrite lookup_insert_ne.
  - intros Hd. simpl. by rewrite Hd.
  - intros d e Hd He. simpl. by rewrite Hd, He.
Qed.

Lemma capabilities_refreshed_witness :
  ∃ self' found,
    async_get_device_capabilities snapshot = Ok found
    ∧ async_update_device_capabilities fresh_connection = (self', Ok ())
    ∧ capabilities self' = Ok (VSet found)
    ∧ model self' = Ok (VStr "ecoMAX 350P2-ZF").
Proof.
  destruct (capabilities_elem snapshot two_mixers eq_refl (or_introl eq_refl))
    as (found & Hfound & _).
  destruct (proj1 (capabilities_refreshed fresh_connection) snapshot found
              eq_refl Hfound) as (self' & Hrun & Hcaps & Hrest & _).
  exists self', found. repeat split; try assumption.
  unfold model, getitem. rewrite Hrest by done. reflexivity.
Defined.
End CapabilityRefresh.

(** ** The set-parameter service *)
Section SetParameter.
Import Py ServiceCalls.
Context {V : Type}.
Implicit Types (devices : list (@Writable V)) (calls : list (string * string * V)).

Lemma set_parameter_caught (device : @Writable V) name value calls :
  ¬ rejects name value device →
  async_set_device_parameter device name value calls
  = (calls ++ [(ident device, name, value)], Ok (confirms name value device)).
Proof.
  intros Hok. unfold async_set_device_parameter, confirms, mbind, M_bind,
    modify, mret, M_ret, raise. simpl.
  destruct (set device name value) eqn:Hset; try done.
  destruct Hok. by eexists.
Qed.

Lemma for_each_set_all devices name value calls :
  (∀ d, d ∈ devices → ¬ rejects name value d) →
  for_each (λ device, async_set_device_parameter device name value) devices calls
  = (calls ++ ((λ d, (ident d, name, value)) <$> devices),
     Ok (confirms name value <$> devices)).
Proof.
  revert calls. induction devices as [|d devices IH]; intros calls Hok; simpl.
  - by rewrite app_nil_r.
  - unfold mbind, M_bind. rewrite set_parameter_caught by (apply Hok; left).
    fold (@mbind (M (list (string * string * V))) _).
    unfold mbind, M_bind. rewrite IH by (intros; apply Hok; by right).
    simpl. by rewrite <- app_assoc.
Qed.

Lemma for_each_set_rejected devices1 d devices2 name value msg calls :
  (∀ d, d ∈ devices1 → ¬ rejects name value d) →
  set d name value = Invalid msg →
  for_each (λ device, async_set_device_parameter device name value)
           (devices1 ++ d :: devices2) calls
  = (calls ++ ((λ d, (ident d, name, value)) <$> devices1 ++ [d]),
     Raise (HomeAssistantError ("Couldn't set parameter: " +:+ msg))).
Proof.
  revert calls. induction devices1 as [|d1 devices1 IH]; intros calls Hok Hd; simpl.
  - unfold mbind, M_bind, async_set_device_parameter, modify, raise. simpl.
    by rewrite Hd.
  - unfold mbind, M_bind. rewrite set_parameter_caught by (apply Hok; left).
    fold (@mbind (M (list (string * string * V))) _).
    unfold mbind, M_bind. rewrite IH by (try done; intros; apply Hok; by right).
    by rewrite <- app_assoc.
Qed.

(** X11: the set-parameter service.  As long as no device rejects the
    value, every device of the fan-out is written to, once and in order,
    also after one has confirmed, and the service raises its error exactly
    when no device confirmed.  When a device rejects the value with
    [ValueError] the service raises at once with the message of the
    device: the devices after it are never written to, and the writes
    already made to the devices before it stand. *)
Theorem set_parameter_fan_out devices name (value : V) calls :
  ((∀ d, d ∈ devices → ¬ rejects name value d) →
   async_set_parameter_service devices name value calls
   = (calls ++ ((λ d, (ident d, name, value)) <$> devices),
      if existsb (confirms name value) devices then Ok ()
      else Raise (HomeAssistantError
                    ("Couldn't set parameter '" +:+ name
                     +:+ "', please check logs for more info"))))
  ∧ (∀ devices1 d devices2 msg,
       devices = devices1 ++ d :: devices2 →
       (∀ d, d ∈ devices1 → ¬ rejects name value d) →
       set d name value = Invalid msg →
       async_set_parameter_service devices name value calls
       = (calls ++ ((λ d, (ident d, name, value)) <$> devices1 ++ [d]),
          Raise (HomeAssistantError ("Couldn't set parameter: " +:+ msg)))).
Proof.
  split.
  - intros Hok. unfold async_set_parameter_service, mbind, M_bind.
    rewrite for_each_set_all by done.
    assert (existsb (λ b : bool, b) (confirms name value <$> devices)
            = existsb (confirms name value) devices) as ->.
    { clear. induction devices as [|d devices IH]; csimpl; [done |].
      by rewrite IH. }
    by destruct (existsb _ devices).
  - intros devices1 d devices2 msg -> Hok Hd.
    unfold async_set_parameter_service, mbind, M_bind.
    by rewrite (for_each_set_rejected _ _ _ _ _ msg).
Qed.
End SetParameter.

Section SetParameterSample.
Import Py ServiceCalls Sample.

Lemma set_parameter_fan_out_witness :
  async_set_parameter_service [pump; valve] "mix_set_temp" 45%Z []
  = ([("pump", "mix_set_temp", 45%Z); ("valve", "mix_set_temp", 45%Z)], Ok ())
  ∧ async_set_parameter_service [pump; valve; pump] "mix_set_temp" 99%Z []
    = ([("pump", "mix_set_temp", 99%Z); ("valve", "mix_set_temp", 99%Z)],
       Raise (HomeAssistantError "Couldn't set parameter: out of range")).
Proof.
  split.
  - refine (proj1 (set_parameter_fan_out [pump; valve] "mix_set_temp" 45%Z []) _).
    intros d Hd [msg Hmsg].
    repeat (apply elem_of_cons in Hd as [-> | Hd]); [| | by apply elem_of_nil in Hd];
      vm_compute in Hmsg; discriminate.
  - refine (proj2 (set_parameter_fan_out [pump; valve; pump] "mix_set_temp" 99%Z [])
              [pump] valve [pump] "out of range" eq_refl _ eq_refl).
    intros d Hd [msg Hmsg].
    apply elem_of_cons in Hd as [-> | Hd]; [| by apply elem_of_nil in Hd].
    vm_compute in Hmsg. discriminate.
Defined.
End SetParameterSample.

(** ** The schedule services *)
Section ScheduleServices.
Import Py Datetime Const Services ServiceCalls Sample.

Lemma dict_fold_lookup_agree {A W} (key : A → string) (val : A → W)
    (xs : list A) (d0 : gmap string W) k v :
  (∀ x, x ∈ xs → key x = k → val x = v) →
  d0 !! k = Some v ∨ (∃ x, x ∈ xs ∧ key x = k) →
  foldl (λ d x, <[key x := val x]> d) d0 xs !! k = Some v.
Proof.
  revert d0. induction xs as [|x xs IH]; intros d0 Hval Hk; simpl.
  - destruct Hk as [? | (x & Hx & _)]; [done | by apply elem_of_nil in Hx].
  - apply IH; [intros y Hy; apply Hval; by right |].
    destruct (decide (key x = k)) as [Hkx | Hkx].
    + left. rewrite <- Hkx, lookup_insert_eq. f_equal. apply Hval; [left | done].
    + destruct Hk as [Hd | (y & Hy & Hky)].
      * left. by rewrite lookup_insert_ne.
      * apply elem_of_cons in Hy as [-> | Hy]; [done |]. right. eauto.
Qed.

Lemma weekday_name_inj w1 w2 : weekday_name w1 = weekday_name w2 → w1 = w2.
Proof. destruct w1, w2; simpl; intros H; try done; discriminate H. Qed.

(** X12: the get-schedule service.  For a schedule type the device does
    not hold it raises its error; for one it holds, the result has one key
    per requested weekday, its name, however often and in whatever order
    the weekday was requested, and under it the decoded day of that
    weekday. *)
Theorem get_schedule_decoded (schedules : gmap string Schedule)
    schedule_type weekdays :
  (schedules !! schedule_type = None →
   async_get_schedule_service schedules schedule_type weekdays
   = Raise (not_supported schedule_type))
  ∧ (∀ schedule, schedules !! schedule_type = Some schedule →
       ∃ d, async_get_schedule_service schedules schedule_type weekdays = Ok d
            ∧ dom d = list_to_set (weekday_name <$> weekdays)
            ∧ ∀ w, w ∈ weekdays →
                d !! weekday_name w
                = Some (async_schedule_day_to_dict (schedule w))).
Proof.
  unfold async_get_schedule_service. split; [by intros -> |].
  intros schedule ->. eexists. split; [reflexivity |]. split.
  - unfold dict_of. by rewrite dict_fold_dom, dom_empty_L, union_empty_l_L.
  - intros w Hw. unfold dict_of. apply dict_fold_lookup_agree.
    + intros w' _ Heq. by apply weekday_name_inj in Heq as ->.
    + right. by exists w.
Qed.

Lemma get_schedule_decoded_witness :
  ∃ d, async_get_schedule_service heating_only "heating"
         [Saturday; Monday; Saturday] = Ok d
       ∧ dom d = {[ "saturday"; "monday" ]}
       ∧ d !! "monday" = Some (async_schedule_day_to_dict working_day)
       ∧ async_get_schedule_service heating_only "water_heater" [Monday]
         = Raise (not_supported "water_heater").
Proof.
  destruct (proj2 (get_schedule_decoded heating_only "heating"
                     [Saturday; Monday; Saturday]) week eq_refl)
    as (d & Hd & Hdom & Hday).
  exists d. split; [exact Hd |]. split; [|split].
  - rewrite Hdom. vm_compute. reflexivity.
  - apply (Hday Monday). apply elem_of_cons; right. apply elem_of_cons; by left.
  - exact (proj1 (get_schedule_decoded heating_only "water_heater" [Monday])
             eq_refl).
Defined.

Section SetSchedule.
Context (set_state : ScheduleDay → string → string → string → SetState).

Lemma store_day_held schedule_type weekday day schedule st :
  in_memory st !! schedule_type = Some schedule →
  store_day schedule_type weekday day st
  = ({| in_memory :=
          <[schedule_type := λ w, if decide (w = weekday) then day else schedule w]>
            (in_memory st);
        committed := committed st |}, Ok ()).
Proof.
  intros Hs. unfold store_day, modify. do 2 f_equal.
  apply map_eq. intros k. destruct (decide (k = schedule_type)) as [-> | Hk].
  - by rewrite lookup_alter_eq, Hs, lookup_insert_eq.
  - by rewrite lookup_alter_ne, lookup_insert_ne.
Qed.

Lemma edit_days_all_edited schedule_type weekdays preset start_time end_time :
  (∀ day, ∃ day', set_state day preset (drop_last3 start_time)
                    (drop_last3 end_time) = Edited day') →
  ∀ schedule st,
    in_memory st !! schedule_type = Some schedule →
    ∃ edited,
      edit_days set_state schedule_type schedule weekdays preset
        start_time end_time st
      = ({| in_memory := <[schedule_type := edited]> (in_memory st);
            committed := committed st |}, Ok edited)
      ∧ ∀ w, edited w
             = Nat.iter (count_occ Weekday_eq_dec weekdays w)
                 (λ day, day_after (set_state day preset (drop_last3 start_time)
                                      (drop_last3 end_time)))
                 (schedule w).
Proof.
  intros Hedit. induction weekdays as [|weekday weekdays IH];
    intros schedule [m c] Hs; simpl in *.
  - exists schedule. split; [|done].
    unfold mret, M_ret. by rewrite insert_id.
  - destruct (Hedit (schedule weekday)) as [day Hday]. rewrite Hday.
    unfold mbind, M_bind. rewrite (store_day_held _ _ _ schedule) by done.
    simpl.
    destruct (IH (λ w, if decide (w = weekday) then day else schedule w)
                {| in_memory :=
                     <[schedule_type :=
                         λ w, if decide (w = weekday) then day else schedule w]> m;
                   committed := c |}) as (edited & -> & Hrest);
      [apply lookup_insert_eq |].
    exists edited. simpl. rewrite insert_insert_eq. split; [done |].
    intros w. rewrite Hrest.
    destruct (Weekday_eq_dec weekday w) as [<- | Hne].
    + rewrite decide_True by done. rewrite Nat.iter_succ_r. by rewrite Hday.
    + by rewrite decide_False.
Qed.

(** X13: the set-schedule service.  For a schedule type the device does
    not hold it raises and touches nothing.  When the library takes the
    preset and the two times, cut to [HH:MM], on every day, the day of
    each weekday is what [set_state] made of it, once for each time the
    weekday is requested: a weekday requested once holds the day the one
    call returned, a weekday not requested holds the day it held.  The
    days so edited are those of the shared schedule object, and the
    schedule is committed once, as edited.  When the library cannot parse
    the times, the service raises the error naming the schedule type and
    nothing is committed. *)
Theorem set_schedule_commits schedule_type weekdays preset start_time end_time st :
  (in_memory st !! schedule_type = None →
   async_set_schedule_service set_state schedule_type weekdays preset
     start_time end_time st
   = (st, Raise (not_supported schedule_type)))
  ∧ (∀ schedule,
       in_memory st !! schedule_type = Some schedule →
       (∀ day, ∃ day', set_state day preset (drop_last3 start_time)
                         (drop_last3 end_time) = Edited day') →
       ∃ edited,
         async_set_schedule_service set_state schedule_type weekdays preset
           start_time end_time st
         = ({| in_memory := <[schedule_type := edited]> (in_memory st);
               committed := committed st ++ [(schedule_type, edited)] |}, Ok ())
         ∧ (∀ w, edited w
                 = Nat.iter (count_occ Weekday_eq_dec weekdays w)
                     (λ day, day_after (set_state day preset
                                          (drop_last3 start_time)
                                          (drop_last3 end_time)))
                     (schedule w))
         ∧ (∀ w, count_occ Weekday_eq_dec weekdays w = 1 →
              set_state (schedule w) preset (drop_last3 start_time)
                (drop_last3 end_time) = Edited (edited w))
         ∧ ∀ w, w ∉ weekdays → edited w = schedule w)
  ∧ (∀ schedule,
       in_memory st !! schedule_type = Some schedule →
       weekdays ≠ [] →
       (∀ day, ∃ day', set_state day preset (drop_last3 start_time)
                         (drop_last3 end_time) = Unparsable day') →
       ∃ st',
         async_set_schedule_service set_state schedule_type weekdays preset
           start_time end_time st
         = (st', Raise (HomeAssistantError
                          ("Error while trying to parse time interval for "
                           +:+ schedule_type +:+ " schedule")))
         ∧ committed st' = committed st).
Proof.
  unfold async_set_schedule_service, mbind, M_bind, gets, raise. simpl.
  split; [by intros -> | split].
  - intros schedule Hs Hedit. rewrite Hs.
    destruct (edit_days_all_edited schedule_type weekdays preset start_time
                end_time Hedit schedule st Hs) as (edited & -> & Hiter).
    exists edited. split; [done |]. split; [exact Hiter |]. split.
    + intros w Hone. rewrite Hiter, Hone. simpl.
      by destruct (Hedit (schedule w)) as [day ->].
    + intros w Hw. rewrite Hiter.
      rewrite list_elem_of_In in Hw.
      by apply (count_occ_not_In Weekday_eq_dec) in Hw as ->.
  - intros schedule Hs Hne Hbad. rewrite Hs.
    destruct weekdays as [|weekday weekdays]; [done |]. simpl.
    destruct (Hbad (schedule weekday)) as [day ->].
    unfold mbind, M_bind. rewrite (store_day_held _ _ _ schedule) by done.
    simpl. eexists. split; [reflexivity | done].
Qed.
End SetSchedule.

Lemma drop_last3_time : drop_last3 "08:30:00" = "08:30".
Proof. reflexivity. Qed.

Lemma set_schedule_commits_witness :
  ∃ edited,
    async_set_schedule_service all_day "heating" [Monday] "day"
      "08:00:00" "10:00:00" {| in_memory := heating_only; committed := [] |}
    = ({| in_memory := <[ "heating" := edited ]> heating_only;
          committed := [("heating", edited)] |}, Ok ())
    ∧ edited Monday = {| intervals := replicate 48 true |}
    ∧ edited Tuesday = week Tuesday.
Proof.
  destruct (proj1 (proj2 (set_schedule_commits all_day "heating" [Monday] "day"
                            "08:00:00" "10:00:00"
                            {| in_memory := heating_only; committed := [] |}))
              week eq_refl) as (edited & Hrun & Hiter & Hone & Hrest).
  - intros day. by eexists.
  - exists edited. split; [exact Hrun |]. split.
    + pose proof (Hone Monday eq_refl) as Hday. by injection Hday as <-.
    + apply Hrest.
      intros H. apply elem_of_cons in H as [H | H]; [discriminate |].
      by apply elem_of_nil in H.
Defined.

(** *** Decoding a day loses nothing *)

Lemma decoded_slot (schedule_day : ScheduleDay) i (b : bool) :
  length (intervals schedule_day) = 48 →
  intervals schedule_day !! i = Some b →
  async_schedule_day_to_dict schedule_day !! slot_key i
  = Some (if b then STATE_DAY else STATE_NIGHT).
Proof.
  intros Hlen Hi.
  assert (i < 48) as Hlt by (rewrite <- Hlen; by eapply lookup_lt_Some).
  rewrite <- (slot_key_strftime i Hlt).
  unfold async_schedule_day_to_dict, dict_of.
  apply (dict_fold_lookup
           (λ '(index, _),
              strftime (add_minutes START_OF_DAY_DT (30 * Z.of_nat index))
                       TIME_FORMAT)
           (λ '(_, value), if value : bool then STATE_DAY else STATE_NIGHT)
           (enumerate (intervals schedule_day)) ∅ (i, b)).
  - rewrite day_keys by done. apply slot_keys_distinct.
  - by apply (enumerate_from_elem _ 0).
Qed.

(** X14: the day can be read back from its dictionary: two days of 48
    slots with the same dictionary have the same slots. *)
Theorem schedule_day_to_dict_inj (day1 day2 : ScheduleDay) :
  length (intervals day1) = 48 → length (intervals day2) = 48 →
  async_schedule_day_to_dict day1 = async_schedule_day_to_dict day2 →
  intervals day1 = intervals day2.
Proof.
  intros H1 H2 Heq. apply list_eq. intros i.
  destruct (intervals day1 !! i) as [b1|] eqn:Hb1;
    destruct (intervals day2 !! i) as [b2|] eqn:Hb2; try done.
  - pose proof (decoded_slot day1 i b1 H1 Hb1) as Hd1.
    pose proof (decoded_slot day2 i b2 H2 Hb2) as Hd2.
    rewrite Heq, Hd2 in Hd1. by destruct b1, b2.
  - apply lookup_lt_Some in Hb1. apply lookup_ge_None in Hb2. lia.
  - apply lookup_ge_None in Hb1. apply lookup_lt_Some in Hb2. lia.
Qed.

Lemma schedule_day_to_dict_inj_witness :
  length (intervals working_day) = 48
  ∧ intervals working_day = intervals working_day.
Proof.
  split; [reflexivity |].
  exact (schedule_day_to_dict_inj working_day working_day eq_refl eq_refl eq_refl).
Defined.
End ScheduleServices.

(** ** The switch entity *)
Section SwitchEntity.
Import Switch Sample.

(** X15: what the switch shows after an update.  With distinct on and off
    values, the value sent by turning on reads back as on and the one sent
    by turning off as off; a value that is neither reads as unknown,
    whatever the switch showed before; with equal on and off values the
    off entry of the table wins and the switch never reads as on.  An
    update writes nothing to the device. *)
Theorem switch_reads_back (self : EcomaxSwitch) :
  let d := entity_description self in
  (state_on d ≠ state_off d →
   _attr_is_on (async_update (state_on d) (async_turn_on self)) = Some true
   ∧ _attr_is_on (async_update (state_off d) (async_turn_off self)) = Some false)
  ∧ (∀ v, v ≠ state_on d → v ≠ state_off d →
          _attr_is_on (async_update v (async_turn_on self)) = None)
  ∧ (state_on d = state_off d →
     ∀ v, _attr_is_on (async_update v self) ≠ Some true)
  ∧ (∀ v, set_values (async_update v self) = set_values self)
  ∧ set_values (async_turn_on self) = set_values self ++ [(key d, state_on d)]
  ∧ set_values (async_turn_off self) = set_values self ++ [(key d, state_off d)].
Proof.
  simpl. unfold states. split; [|split; [|split; [|done]]].
  - intros Hne. simpl. split.
    + rewrite decide_False by done. by rewrite decide_True.
    + by rewrite decide_True.
  - intros v Hon Hoff. simpl. by rewrite !decide_False.
  - intros Heq v. simpl. rewrite Heq. by destruct (decide _).
Qed.

Lemma switch_reads_back_witness :
  _attr_is_on (async_update (PInt 2) (async_turn_on (new pump_switch))) = Some true
  ∧ _attr_is_on (async_update (PInt 1) (async_turn_on (new pump_switch))) = None.
Proof.
  destruct (switch_reads_back (new pump_switch)) as (Hround & Hother & _).
  split.
  - exact (proj1 (Hround ltac:(discriminate))).
  - exact (Hother (PInt 1) ltac:(discriminate) ltac:(discriminate)).
Defined.
End SwitchEntity.

(** ** Every outcome of target-device resolution *)
Section TargetOutcomes.
Import Py HA Const Services Sample.

Lemma split_nonempty sep n s : split sep n s ≠ [].
Proof.
  revert n. induction s as [|a s IH]; intros n; simpl; [done |].
  destruct n as [|m]; [done |].
  destruct (Ascii.eqb a sep); [done |].
  by destruct (split sep (S m) s).
Qed.

(** X16: resolution returns nothing but the main device the connection
    holds or a mixer of that device's collection, and raises in four cases
    only: the device id is not in the registry ([HomeAssistantError], not
    found), the registry entry has no identifier ([IndexError]), the
    identifier holds the marker [-mixer-] and [int] does not read the last
    of its fields ([ValueError]), or none of these and the connection
    holds no device yet ([ConfigEntryNotReady], device not found). *)
Theorem target_device_outcomes device_id dr connection :
  match async_extract_target_device device_id dr connection with
  | Ok (Main e) => _device connection = Some e
  | Ok (Sub m) =>
      ∃ e i, _device connection = Some e
             ∧ default ∅ (mixers e) !! i = Some m
  | Raise (HomeAssistantError msg) =>
      (async_get dr device_id = None
       ∧ msg = "Selected device '" +:+ device_id
               +:+ "' was not found, please try again")
      ∨ (_device connection = None
         ∧ msg = "Device not found"
         ∧ ∃ entry domain identifier others,
             async_get dr device_id = Some entry
             ∧ identifiers entry = (domain, identifier) :: others
             ∧ (contains "-mixer-" identifier = true →
                ∃ field i, last (split "-" 3 identifier) = Some field
                           ∧ py_int field = Ok i))
  | Raise IndexError =>
      ∃ entry, async_get dr device_id = Some entry ∧ identifiers entry = []
  | Raise ValueError =>
      ∃ entry domain identifier others field,
        async_get dr device_id = Some entry
        ∧ identifiers entry = (domain, identifier) :: others
        ∧ contains "-mixer-" identifier = true
        ∧ last (split "-" 3 identifier) = Some field
        ∧ py_int field = Raise ValueError
  | Raise _ => False
  end.
Proof.
  unfold async_extract_target_device, device.
  destruct (async_get dr device_id) as [entry|] eqn:Hentry; [|by left].
  destruct (identifiers entry) as [|[domain identifier] others] eqn:Hids;
    [by exists entry |].
  destruct (contains "-mixer-" identifier) eqn:Hmarker.
  - destruct (last (split "-" 3 identifier)) as [field|] eqn:Hlast.
    + destruct (py_int field) as [i|e] eqn:Hint; simpl.
      * destruct (_device connection) as [ecomax|] eqn:Hdev; simpl.
        -- destruct (default ∅ (mixers ecomax) !! i) eqn:Hm;
             [by exists ecomax, i | done].
        -- right. split; [done |]. split; [done |].
           exists entry, domain, identifier, others.
           split; [done |]. split; [done |]. intros _. by exists field, i.
      * assert (e = ValueError) as ->.
        { unfold py_int in Hint. repeat case_match; by simplify_eq. }
        by exists entry, domain, identifier, others, field.
    + apply last_None in Hlast. by destruct (split_nonempty "-" 3 identifier).
  - destruct (_device connection) as [ecomax|] eqn:Hdev; simpl; [done |].
    right. split; [done |]. split; [done |].
    exists entry, domain, identifier, others.
    split; [done |]. split; [done |]. by rewrite Hmarker.
Qed.

(** Before [async_setup] has found the device, a registered identifier
    resolves to no device: the [device] property raises. *)
Example target_device_not_ready :
  async_extract_target_device "main" devices_registry not_ready
  = Raise (HomeAssistantError "Device not found")
  ∧ async_extract_target_device "mixer1" devices_registry not_ready
    = Raise (HomeAssistantError "Device not found")
  ∧ async_extract_target_device "dashed" devices_registry not_ready
    = Raise ValueError.
Proof. split; [|split]; vm_compute; reflexivity. Qed.
End TargetOutcomes.

(** ** Setting an entry up and unloading it *)
Section EntryLifecycle.
Import Py HA Const Entry.

(** X17: the life of an entry in [hass.data].  A set-up that times out
    raises not-ready and registers nothing.  A set-up that succeeds
    registers the connection under the entry id; unloading it then closes
    that connection once and takes it out again, leaving the other
    entries as they were.  Unloading an entry that is not registered -
    a second unload, or no dictionary at all - raises nothing, closes
    nothing and returns what the platforms returned; and when the
    platforms refuse to unload nothing is closed or removed. *)
Theorem entry_set_up_and_unloaded (hass : Hass) (entry_id name : string) :
  async_setup_entry entry_id name (Raise TimeoutError) hass
  = (hass, Raise (HomeAssistantError ("Timed out while connecting to " +:+ name)))
  ∧ (let hass1 := (async_setup_entry entry_id name (Ok ()) hass).1 in
     let hass2 := (async_unload_entry entry_id true hass1).1 in
     (async_setup_entry entry_id name (Ok ()) hass).2 = Ok true
     ∧ (async_unload_entry entry_id true hass1).2 = Ok true
     ∧ closed hass2 = closed hass ++ [name]
     ∧ domain_data hass2 = Some (delete entry_id (default ∅ (domain_data hass)))
     ∧ async_unload_entry entry_id true hass2 = (hass2, Ok true))
  ∧ ((∀ d, domain_data hass = Some d → d !! entry_id = None) →
     ∀ unload_ok, async_unload_entry entry_id unload_ok hass = (hass, Ok unload_ok))
  ∧ async_unload_entry entry_id false hass = (hass, Ok false).
Proof.
  destruct hass as [dd cl].
  unfold async_setup_entry, async_unload_entry, connection_of, try_except,
    mbind, M_bind, mret, M_ret, lift, modify, raise, getitem.
  simpl. split; [done |]. split; [|split; [|done]].
  - rewrite lookup_insert_eq. simpl. rewrite delete_insert_eq.
    rewrite lookup_delete_eq. done.
  - intros Hfree [|]; [|done].
    destruct dd as [d|]; simpl; [|done]. by rewrite (Hfree d).
Qed.

Lemma entry_set_up_and_unloaded_witness :
  async_unload_entry "e1" true {| domain_data := Some {[ "e2" := "tty" ]}; closed := [] |}
  = ({| domain_data := Some {[ "e2" := "tty" ]}; closed := [] |}, Ok true).
Proof.
  refine (proj1 (proj2 (proj2 (entry_set_up_and_unloaded
            {| domain_data := Some {[ "e2" := "tty" ]}; closed := [] |}
            "e1" "")))  _ true).
  intros d [= <-]. reflexivity.
Defined.
End EntryLifecycle.
